(** * Interviewer-AI backend: research cache, polling clients and prompt builder

    A shallow embedding of the three research/synthesis Lambda handlers of
    [src/backend/functions]:
    - [company_research/app.py]    : [company_handler]
    - [interviewer_research/app.py]: [interviewer_handler], with
      [fetch_linkedin_profile], [find_linkedin_url],
      [extract_linkedin_id] and [generate_persona_profile]
    - [persona_generator/app.py]   : [persona_handler]

    Python values are modelled by [pyval]; the three DynamoDB tables by
    stdpp maps from the partition-key string to an item (a map from
    attribute names to values).  Handlers run in a state and exception
    monad [M] over the tables and a trace of the effects of one invocation
    (store writes, external requests, sleeps and log lines).  Store faults
    and the answers of the external providers are inputs of the handlers. *)

From Stdlib Require Import ZArith Ascii String List Bool Lia.
From stdpp Require Import base gmap strings list pretty.
Import ListNotations.

Local Open Scope string_scope.
#[local] Set Warnings "-register-all".

(* ================================================================= *)
(** ** Python values *)

(** [PDec] is a [decimal.Decimal] with an integral value: boto3's
    DynamoDB resource returns every stored number as a Decimal. *)
Inductive pyval : Type :=
| PNone
| PBool (b : bool)
| PInt (z : Z)
| PDec (z : Z)
| PStr (s : string)
| PList (l : list pyval)
| PDict (d : list (string * pyval)).

(** Induction over [pyval] through the elements of lists and dicts. *)
Fixpoint pyval_ind' (P : pyval -> Prop)
    (f0 : P PNone) (f1 : forall b, P (PBool b)) (f2 : forall z, P (PInt z))
    (f3 : forall z, P (PDec z)) (f4 : forall s, P (PStr s))
    (f5 : forall l, Forall P l -> P (PList l))
    (f6 : forall d, Forall (fun kv => P (snd kv)) d -> P (PDict d)) (v : pyval) : P v :=
  match v with
  | PNone => f0
  | PBool b => f1 b
  | PInt z => f2 z
  | PDec z => f3 z
  | PStr s => f4 s
  | PList l =>
    f5 l ((fix go (l : list pyval) : Forall P l :=
             match l with
             | [] => List.Forall_nil P
             | x :: r => @List.Forall_cons _ P x r (pyval_ind' P f0 f1 f2 f3 f4 f5 f6 x) (go r)
             end) l)
  | PDict d =>
    f6 d ((fix go (d : list (string * pyval)) : Forall (fun kv => P (snd kv)) d :=
             match d with
             | [] => List.Forall_nil _
             | (k, x) :: r =>
               @List.Forall_cons _ (fun kv => P (snd kv)) (k, x) r
                 (pyval_ind' P f0 f1 f2 f3 f4 f5 f6 x) (go r)
             end) d)
  end.

(** An outcome of Python code: a value, or an exception with its [str]. *)
Inductive exn_or (A : Type) : Type :=
| Ok (a : A)
| Exn (msg : string).
Arguments Ok {A} a.
Arguments Exn {A} msg.

Definition is_emptyb {A} (l : list A) : bool :=
  match l with [] => true | _ => false end.

(** Python truthiness ([if v:]). *)
Definition truthy (v : pyval) : bool :=
  match v with
  | PNone => false
  | PBool b => b
  | PInt z | PDec z => negb (Z.eqb z 0)
  | PStr s => negb (String.eqb s "")
  | PList l => negb (is_emptyb l)
  | PDict d => negb (is_emptyb d)
  end.

(** Dictionary lookup ([k in d], [d[k]]). *)
Fixpoint dget (d : list (string * pyval)) (k : string) : option pyval :=
  match d with
  | [] => None
  | (k', v) :: d' => if String.eqb k k' then Some v else dget d' k
  end.

(** [v.get(k, dflt)]: an [AttributeError] when [v] is not a dict. *)
Definition pyget (v : pyval) (k : string) (dflt : pyval) : exn_or pyval :=
  match v with
  | PDict d => match dget d k with Some x => Ok x | None => Ok dflt end
  | _ => Exn "AttributeError: object has no attribute 'get'"
  end.

(** JSON-shaped values: what a JSON document decodes to (no Decimal). *)
Fixpoint is_json (v : pyval) : bool :=
  match v with
  | PDec _ => false
  | PList l => forallb is_json l
  | PDict d => forallb (fun kv => is_json (snd kv)) d
  | _ => true
  end.

(* ================================================================= *)
(** ** [str], [repr] and [json.dumps] *)

Definition dq : ascii := ascii_of_nat 34.
Definition sq : ascii := ascii_of_nat 39.
Definition nl : string := String (ascii_of_nat 10) EmptyString.

Fixpoint concat_with (sep : string) (l : list string) : string :=
  match l with
  | [] => ""
  | [x] => x
  | x :: l' => x +:+ sep +:+ concat_with sep l'
  end.

Fixpoint spaces (n : nat) : string :=
  match n with O => "" | S n' => String " " (spaces n') end.

Definition hex_digit (n : nat) : ascii :=
  if Nat.ltb n 10 then ascii_of_nat (48 + n) else ascii_of_nat (87 + n).

(** One character of a JSON string literal, with [ensure_ascii=True]. *)
Definition json_escape (c : ascii) : string :=
  let n := nat_of_ascii c in
  if Nat.eqb n 34 then String "\" (String dq EmptyString)
  else if Nat.eqb n 92 then "\\"
  else if Nat.eqb n 10 then "\n"
  else if Nat.eqb n 13 then "\r"
  else if Nat.eqb n 9 then "\t"
  else if Nat.eqb n 8 then "\b"
  else if Nat.eqb n 12 then "\f"
  else if Nat.ltb n 32 || Nat.leb 128 n
  then "\u00" +:+ String (hex_digit (n / 16)) (String (hex_digit (n mod 16)) EmptyString)
  else String c EmptyString.

Fixpoint json_escape_str (s : string) : string :=
  match s with
  | EmptyString => ""
  | String c s' => json_escape c +:+ json_escape_str s'
  end.

Definition json_quote (s : string) : string :=
  String dq (json_escape_str s +:+ String dq EmptyString).

Definition decimal_type_error : string :=
  "Object of type Decimal is not JSON serializable".

Fixpoint all_ok (l : list (exn_or string)) : exn_or (list string) :=
  match l with
  | [] => Ok []
  | Ok s :: l' => match all_ok l' with Ok r => Ok (s :: r) | Exn e => Exn e end
  | Exn e :: _ => Exn e
  end.

(** The body of a non-empty container: [indent = None] is
    [json.dumps(v)] (separator [", "]), [indent = Some k] is
    [json.dumps(v, indent=k)] (one item per line). *)
Definition json_container (indent : option nat) (lvl : nat)
    (op cl : string) (items : list string) : string :=
  match items with
  | [] => op +:+ cl
  | _ =>
    match indent with
    | None => op +:+ concat_with ", " items +:+ cl
    | Some k =>
      op +:+ nl +:+ spaces (k * S lvl)
         +:+ concat_with ("," +:+ nl +:+ spaces (k * S lvl)) items
         +:+ nl +:+ spaces (k * lvl) +:+ cl
    end
  end.

(** [json.dumps(v, indent=...)]; a Decimal raises [TypeError]. *)
Fixpoint json_dumps (indent : option nat) (lvl : nat) (v : pyval) : exn_or string :=
  match v with
  | PNone => Ok "null"
  | PBool true => Ok "true"
  | PBool false => Ok "false"
  | PInt z => Ok (pretty z)
  | PDec _ => Exn decimal_type_error
  | PStr s => Ok (json_quote s)
  | PList l =>
    match all_ok (map (json_dumps indent (S lvl)) l) with
    | Ok items => Ok (json_container indent lvl "[" "]" items)
    | Exn e => Exn e
    end
  | PDict d =>
    match all_ok (map (fun kv =>
                         match json_dumps indent (S lvl) (snd kv) with
                         | Ok s => Ok (json_quote (fst kv) +:+ ": " +:+ s)
                         | Exn e => Exn e
                         end) d) with
    | Ok items => Ok (json_container indent lvl "{" "}" items)
    | Exn e => Exn e
    end
  end.

(** [repr(v)] (strings in single quotes, escapes not reproduced). *)
Fixpoint py_repr (v : pyval) : string :=
  match v with
  | PNone => "None"
  | PBool true => "True"
  | PBool false => "False"
  | PInt z => pretty z
  | PDec z => "Decimal('" +:+ pretty z +:+ "')"
  | PStr s => String sq (s +:+ String sq EmptyString)
  | PList l => "[" +:+ concat_with ", " (map py_repr l) +:+ "]"
  | PDict d =>
    "{" +:+ concat_with ", "
          (map (fun kv => String sq (fst kv +:+ String sq EmptyString)
                            +:+ ": " +:+ py_repr (snd kv)) d) +:+ "}"
  end.

(** [str(v)], as an f-string substitutes it. *)
Definition py_str (v : pyval) : string :=
  match v with
  | PStr s => s
  | PDec z => pretty z
  | _ => py_repr v
  end.

(* ================================================================= *)
(** ** The state and exception monad *)

Inductive tid := TCompany | TLinkedin | TPersona.

Inductive event :=
| EPut (t : tid) (k : string)          (* a successful put_item *)
| EUpdate (t : tid) (k : string)       (* a successful update_item *)
| EFetch (what : string)               (* a request to an external provider *)
| ESleep (secs : nat)                  (* time.sleep *)
| ELog (msg : string).                 (* print in an except branch *)

Record world := mkWorld {
  w_company : gmap string (gmap string pyval);
  w_linkedin : gmap string (gmap string pyval);
  w_persona : gmap string (gmap string pyval);
  w_trace : list event
}.

Definition table_of (t : tid) (w : world) : gmap string (gmap string pyval) :=
  match t with
  | TCompany => w_company w
  | TLinkedin => w_linkedin w
  | TPersona => w_persona w
  end.

Definition set_table (t : tid) (tb : gmap string (gmap string pyval)) (w : world) : world :=
  match t with
  | TCompany => mkWorld tb (w_linkedin w) (w_persona w) (w_trace w)
  | TLinkedin => mkWorld (w_company w) tb (w_persona w) (w_trace w)
  | TPersona => mkWorld (w_company w) (w_linkedin w) tb (w_trace w)
  end.

(** Each Lambda invocation starts with an empty trace. *)
Definition invocation (w : world) : world :=
  mkWorld (w_company w) (w_linkedin w) (w_persona w) [].

Definition M (A : Type) : Type := world -> exn_or A * world.

Definition ret {A} (a : A) : M A := fun w => (Ok a, w).

Definition bind {A B} (m : M A) (k : A -> M B) : M B :=
  fun w => match m w with
           | (Ok a, w') => k a w'
           | (Exn e, w') => (Exn e, w')
           end.

Notation "x <- m ;; k" := (bind m (fun x => k))
  (at level 62, m at next level, right associativity).
Notation "m ;;; k" := (bind m (fun _ => k))
  (at level 62, right associativity).

Definition raise {A} (e : string) : M A := fun w => (Exn e, w).

Definition lift {A} (r : exn_or A) : M A := fun w => (r, w).

(** [try: m except Exception as e: h(str(e))]. *)
Definition try_ {A} (m : M A) (h : string -> M A) : M A :=
  fun w => match m w with
           | (Exn e, w') => h e w'
           | r => r
           end.

Definition emit (e : event) : M unit :=
  fun w => (Ok tt, mkWorld (w_company w) (w_linkedin w) (w_persona w)
                           (app (w_trace w) [e])).

Definition push (e : event) (w : world) : world :=
  mkWorld (w_company w) (w_linkedin w) (w_persona w) (app (w_trace w) [e]).

(* ================================================================= *)
(** ** The DynamoDB tables *)

(** Which store operations raise in one invocation, and with what [str]. *)
Record faults := {
  f_get : tid -> option string;
  f_put : tid -> option string;
  f_update : tid -> option string
}.

Definition no_faults : faults :=
  {| f_get := fun _ => None; f_put := fun _ => None; f_update := fun _ => None |}.

Definition pk_name (t : tid) : string :=
  match t with
  | TCompany => "company_url"
  | TLinkedin => "linkedin_url"
  | TPersona => "session_id"
  end.

(** boto3's serializer: a Python int is stored as a DynamoDB number, which
    the resource reads back as a Decimal. *)
Fixpoint to_dynamo (v : pyval) : pyval :=
  match v with
  | PInt z => PDec z
  | PList l => PList (map to_dynamo l)
  | PDict d => PDict (map (fun kv => (fst kv, to_dynamo (snd kv))) d)
  | _ => v
  end.

(** A key attribute must be a string (the tables' key schema). *)
Definition key_of (v : pyval) : exn_or string :=
  match v with
  | PStr s => Ok s
  | _ => Exn "ValidationException: The provided key element does not match the schema"
  end.

(** [table.get_item(Key=...)]: [Some item] is a response with ["Item"]. *)
Definition get_item (fl : faults) (t : tid) (k : string) : M (option (gmap string pyval)) :=
  fun w => match f_get fl t with
           | Some e => (Exn e, w)
           | None => (Ok (table_of t w !! k), w)
           end.

Definition item_of (attrs : list (string * pyval)) : gmap string pyval :=
  list_to_map (map (fun kv => (fst kv, to_dynamo (snd kv))) attrs).

(** [table.put_item(Item=attrs)]: replaces the whole item. *)
Definition put_item (fl : faults) (t : tid) (attrs : list (string * pyval)) : M unit :=
  k <- lift (match dget attrs (pk_name t) with
             | Some v => key_of v
             | None => Exn "ValidationException: missing key"
             end) ;;
  fun w => match f_put fl t with
           | Some e => (Exn e, w)
           | None => (Ok tt, push (EPut t k) (set_table t (<[k := item_of attrs]> (table_of t w)) w))
           end.

(** [table.update_item(Key=..., UpdateExpression="SET f1 = :v1, ...")]:
    one atomic write that sets the listed attributes and keeps the others;
    a missing item is created with its key attribute. *)
Definition set_attrs (sets : list (string * pyval)) (it : gmap string pyval) : gmap string pyval :=
  foldl (fun acc kv => <[fst kv := to_dynamo (snd kv)]> acc) it sets.

Definition update_set (fl : faults) (t : tid) (k : string) (sets : list (string * pyval)) : M unit :=
  fun w => match f_update fl t with
           | Some e => (Exn e, w)
           | None =>
             let base := default {[pk_name t := PStr k]} (table_of t w !! k) in
             (Ok tt, push (EUpdate t k) (set_table t (<[k := set_attrs sets base]> (table_of t w)) w))
           end.

(* ================================================================= *)
(** ** Provider payload normalization (company_research lines 95-116) *)

(** A method of a provider object: absent ([hasattr] is false), raising,
    or returning a value. *)
Inductive meth := NoAttr | Raises (msg : string) | Returns (v : pyval).

Record pyobj := {
  o_model_dump : meth;
  o_dict : meth;
  o_str : string;        (* str(obj) *)
  o_truthy : bool
}.

Inductive raw_output :=
| RStr (s : string)
| RObj (o : pyobj).

Definition output_truthy (r : raw_output) : bool :=
  match r with
  | RStr s => negb (String.eqb s "")
  | RObj o => o_truthy o
  end.

Definition has_attr (m : meth) : bool :=
  match m with NoAttr => false | _ => true end.

Definition call_meth (m : meth) : exn_or pyval :=
  match m with
  | NoAttr => Exn "AttributeError"
  | Raises e => Exn e
  | Returns v => Ok v
  end.

Definition try_e {A} (r : exn_or A) (h : string -> exn_or A) : exn_or A :=
  match r with Exn e => h e | ok => ok end.

(** The normalization, for a given [json.loads] ([None]: it raises). *)
Definition normalize_with (loads : string -> option pyval) (raw_output : raw_output) : exn_or pyval :=
  match raw_output with
  | RObj o =>
    let wrap := PDict [("raw_output", PStr (o_str o))] in
    try_e (if has_attr (o_model_dump o) then call_meth (o_model_dump o)
           else if has_attr (o_dict o) then call_meth (o_dict o)
           else Ok wrap)
          (fun _ => Ok wrap)
  | RStr s =>
    try_e (match loads s with Some v => Ok v | None => Exn "JSONDecodeError" end)
          (fun _ => Ok (PDict [("raw_output", PStr s)]))
  end.

(** *** [json.loads] on the JSON fragment without fractions, exponents and
    [\u] escapes; on those, and on invalid text, it reports a failure. *)

Definition is_ws (c : ascii) : bool :=
  let n := nat_of_ascii c in
  Nat.eqb n 32 || Nat.eqb n 10 || Nat.eqb n 13 || Nat.eqb n 9.

Fixpoint skip_ws (s : string) : string :=
  match s with
  | String c r => if is_ws c then skip_ws r else s
  | EmptyString => s
  end.

Definition digit_of (c : ascii) : option Z :=
  let n := nat_of_ascii c in
  if (48 <=? n)%nat && (n <=? 57)%nat then Some (Z.of_nat (n - 48)) else None.

Fixpoint parse_digits (s : string) (acc : Z) : Z * string :=
  match s with
  | String c r => match digit_of c with
                  | Some d => parse_digits r (10 * acc + d)
                  | None => (acc, s)
                  end
  | EmptyString => (acc, s)
  end.

(** An integer: [0] or a digit run without a leading zero. *)
Definition parse_nat (s : string) : option (Z * string) :=
  match s with
  | String c r =>
    match digit_of c with
    | Some 0%Z => Some (0%Z, r)
    | Some d => Some (parse_digits r d)
    | None => None
    end
  | EmptyString => None
  end.

Definition frac_or_exp (s : string) : bool :=
  match s with
  | String c _ => let n := nat_of_ascii c in Nat.eqb n 46 || Nat.eqb n 101 || Nat.eqb n 69
  | EmptyString => false
  end.

Definition parse_number (s : string) : option (pyval * string) :=
  let '(neg, s') := match s with
                    | String "-" r => (true, r)
                    | _ => (false, s)
                    end in
  match parse_nat s' with
  | Some (z, r) => if frac_or_exp r then None
                   else Some (PInt (if neg then Z.opp z else z), r)
  | None => None
  end.

(** The body of a string literal after its opening quote. *)
Fixpoint parse_str_body (s : string) : option (string * string) :=
  match s with
  | EmptyString => None
  | String c r =>
    let n := nat_of_ascii c in
    if Nat.eqb n 34 then Some ("", r)
    else if Nat.ltb n 32 then None
    else if Nat.eqb n 92 then
      match r with
      | String e r' =>
        let m := nat_of_ascii e in
        let esc := if Nat.eqb m 34 then Some dq
                   else if Nat.eqb m 92 then Some "\"%char
                   else if Nat.eqb m 47 then Some "/"%char
                   else if Nat.eqb m 98 then Some (ascii_of_nat 8)
                   else if Nat.eqb m 102 then Some (ascii_of_nat 12)
                   else if Nat.eqb m 110 then Some (ascii_of_nat 10)
                   else if Nat.eqb m 114 then Some (ascii_of_nat 13)
                   else if Nat.eqb m 116 then Some (ascii_of_nat 9)
                   else None in
        match esc, parse_str_body r' with
        | Some x, Some (body, rest) => Some (String x body, rest)
        | _, _ => None
        end
      | EmptyString => None
      end
    else match parse_str_body r with
         | Some (body, rest) => Some (String c body, rest)
         | None => None
         end
  end.

Definition starts_with (p s : string) : bool :=
  String.eqb (substring 0 (String.length p) s) p.

Definition drop (n : nat) (s : string) : string :=
  substring n (String.length s - n) s.

Fixpoint parse_value (fuel : nat) (s : string) : option (pyval * string) :=
  match fuel with
  | O => None
  | S f =>
    let s := skip_ws s in
    if starts_with "null" s then Some (PNone, drop 4 s)
    else if starts_with "true" s then Some (PBool true, drop 4 s)
    else if starts_with "false" s then Some (PBool false, drop 5 s)
    else match s with
    | String c r =>
      let n := nat_of_ascii c in
      if Nat.eqb n 34 then
        match parse_str_body r with
        | Some (body, rest) => Some (PStr body, rest)
        | None => None
        end
      else if Nat.eqb n 91 then
        (* '[' : elements separated by ',' up to ']' *)
        if starts_with "]" (skip_ws r) then Some (PList [], drop 1 (skip_ws r))
        else
        let fix items (g : nat) (s : string) : option (list pyval * string) :=
          match g with
          | O => None
          | S g' =>
            match parse_value f s with
            | Some (v, rest) =>
              let rest := skip_ws rest in
              if starts_with "," rest then
                match items g' (drop 1 rest) with
                | Some (vs, rest') => Some (v :: vs, rest')
                | None => None
                end
              else if starts_with "]" rest then Some ([v], drop 1 rest)
              else None
            | None => None
            end
          end in
        match items f r with
        | Some (vs, rest) => Some (PList vs, rest)
        | None => None
        end
      else if Nat.eqb n 123 then
        (* '{' : "key": value pairs separated by ',' up to '}' *)
        if starts_with "}" (skip_ws r) then Some (PDict [], drop 1 (skip_ws r))
        else
        let fix members (g : nat) (s : string) : option (list (string * pyval) * string) :=
          match g with
          | O => None
          | S g' =>
            match skip_ws s with
            | String q r1 =>
              if Nat.eqb (nat_of_ascii q) 34 then
                match parse_str_body r1 with
                | Some (key, r2) =>
                  let r2 := skip_ws r2 in
                  if starts_with ":" r2 then
                    match parse_value f (drop 1 r2) with
                    | Some (v, rest) =>
                      let rest := skip_ws rest in
                      if starts_with "," rest then
                        match members g' (drop 1 rest) with
                        | Some (kvs, rest') => Some ((key, v) :: kvs, rest')
                        | None => None
                        end
                      else if starts_with "}" rest then Some ([(key, v)], drop 1 rest)
                      else None
                    | None => None
                    end
                  else None
                | None => None
                end
              else None
            | EmptyString => None
            end
          end in
        match members f r with
        | Some (kvs, rest) => Some (PDict kvs, rest)
        | None => None
        end
      else parse_number s
    | EmptyString => None
    end
  end.

Definition json_loads (s : string) : option pyval :=
  match parse_value (S (String.length s)) s with
  | Some (v, rest) => if String.eqb (skip_ws rest) "" then Some v else None
  | None => None
  end.

Definition normalize : raw_output -> exn_or pyval := normalize_with json_loads.

(* ================================================================= *)
(** ** company_research/app.py : [lambda_handler] *)

(** Module-level configuration read from the environment ([""] when unset). *)
Record company_env := {
  ce_table_name : string;          (* COMPANY_TABLE_NAME *)
  ce_persona_table_name : string;  (* PERSONA_TABLE_NAME *)
  ce_api_key : string;             (* PARALLEL_AI_API_KEY *)
  ce_now : Z                       (* int(time.time()) *)
}.

(** The Parallel task API: [task_run.create], then [task_run.result] at
    poll [i] either raises or returns a result whose [output] is absent
    ([None]) or present. *)
Inductive poll_resp :=
| PollRaise (msg : string)
| PollResult (output : option raw_output).

Record parallel_provider := {
  pp_create : exn_or string;        (* the run_id, or the exception *)
  pp_result : nat -> poll_resp
}.

Definition error_body (msg : string) : M string :=
  lift (json_dumps None 0 (PDict [("error", PStr msg)])).

Definition status_body (code : Z) (body : string) : pyval :=
  PDict [("statusCode", PInt code); ("body", PStr body)].

Definition company_ok (session_id key : pyval) : pyval :=
  PDict [("statusCode", PInt 200); ("session_id", session_id); ("company_url", key)].

Definition mock_company_data (company_name : pyval) : pyval :=
  PDict [("name", if truthy company_name then company_name else PStr "Tech Corp");
         ("industry", PStr "Software Engineering");
         ("culture", PStr "Product-led, engineering-first culture.");
         ("recent_news", PStr "Recently announced expansion.")].

(** The [for _ in range(max_retries): ... else: raise] poll loop; [fuel]
    polls are left, [i] is the index of the next one. *)
Fixpoint poll_task_result (pv : parallel_provider) (fuel i : nat) : M pyval :=
  match fuel with
  | O => raise "Parallel AI task timed out."
  | S f =>
    emit (EFetch "task_run.result") ;;;
    match pp_result pv i with
    | PollRaise e => raise e
    | PollResult (Some r) =>
      if output_truthy r then lift (normalize r)
      else emit (ESleep 2) ;;; poll_task_result pv f (S i)
    | PollResult None => emit (ESleep 2) ;;; poll_task_result pv f (S i)
    end
  end.

Definition company_max_retries : nat := 30.

(** Lines 76-119: create the task run, then poll it. *)
Definition parallel_research (pv : parallel_provider) : M pyval :=
  emit (EFetch "task_run.create") ;;;
  _ <- lift (pp_create pv) ;;
  poll_task_result pv company_max_retries 0.

Definition ascii_lower (c : ascii) : ascii :=
  let n := nat_of_ascii c in
  if (65 <=? n)%nat && (n <=? 90)%nat then ascii_of_nat (n + 32) else c.

(** [s.lower()] (ASCII letters). *)
Fixpoint str_lower (s : string) : string :=
  match s with
  | EmptyString => EmptyString
  | String c r => String (ascii_lower c) (str_lower r)
  end.

(** [s.replace(' ', '_')]. *)
Fixpoint replace_space (s : string) : string :=
  match s with
  | EmptyString => EmptyString
  | String c r => String (if Ascii.eqb c " " then "_"%char else c) (replace_space r)
  end.

(** [f"name:{company_name.lower().replace(' ', '_')}"]. *)
Definition fallback_key (company_name : pyval) : exn_or string :=
  match company_name with
  | PStr s => Ok ("name:" +:+ replace_space (str_lower s))
  | _ => Exn "AttributeError: object has no attribute 'lower'"
  end.

(** [final_key = company_url if company_url else f"name:..."]. *)
Definition company_final_key (company_url company_name : pyval) : exn_or pyval :=
  if truthy company_url then Ok company_url
  else match fallback_key company_name with
       | Ok k => Ok (PStr k)
       | Exn e => Exn e
       end.

(** [persona_table.update_item(..., UpdateExpression="SET company_url = :url")]
    under [if session_id and persona_table_name]. *)
Definition link_session (env : company_env) (fl : faults) (session_id key : pyval) : M unit :=
  if truthy session_id && negb (String.eqb (ce_persona_table_name env) "") then
    sk <- lift (key_of session_id) ;;
    update_set fl TPersona sk [("company_url", key)]
  else ret tt.

(** Lines 39-59, the body of the cache [try]: [Some r] is an early return. *)
Definition cache_lookup (env : company_env) (fl : faults) (company_url session_id : pyval)
    : M (option pyval) :=
  k <- lift (key_of company_url) ;;
  r <- get_item fl TCompany k ;;
  match r with
  | Some _ =>
    try_ (link_session env fl session_id company_url)
         (fun e => emit (ELog ("Failed to link session to cache: " +:+ e))) ;;;
    ret (Some (company_ok session_id company_url))
  | None => ret None
  end.

(** [save_data]: the ["content"] entry of a dict payload, if any. *)
Definition save_data_of (company_data : pyval) : pyval :=
  match company_data with
  | PDict d => match dget d "content" with Some c => c | None => company_data end
  | _ => company_data
  end.

(** Lines 124-161.  The one [try] is split at the assignment of
    [final_key]: an exception before it returns [company_url]
    ([final_key] not in [locals()]), an exception after it returns
    [final_key]. *)
Definition save_and_link (env : company_env) (fl : faults)
    (company_url company_name session_id company_data : pyval) : M pyval :=
  let save_data := save_data_of company_data in
  fk <- try_ (k <- lift (company_final_key company_url company_name) ;; ret (Some k))
             (fun e => emit (ELog ("Storage save or link failed: " +:+ e)) ;;; ret None) ;;
  match fk with
  | None => ret (company_ok session_id company_url)
  | Some final_key =>
    try_ (put_item fl TCompany [("company_url", final_key); ("data", save_data);
                                ("updated_at", PStr (pretty (ce_now env)))] ;;;
          link_session env fl session_id final_key)
         (fun e => emit (ELog ("Storage save or link failed: " +:+ e))) ;;;
    ret (company_ok session_id final_key)
  end.

(** Step 1 (lines 38-61): the global cache check; [Some r] is an early return. *)
Definition company_cache_step (env : company_env) (fl : faults) (company_url session_id : pyval)
    : M (option pyval) :=
  if truthy company_url then
    try_ (cache_lookup env fl company_url session_id)
         (fun e => emit (ELog ("Cache check failed: " +:+ e)) ;;; ret None)
  else ret None.

(** Step 2 (lines 64-121): the research data ([inl]), or the early
    return of the [except] ([inr]). *)
Definition company_fetch (env : company_env) (pv : parallel_provider) (company_name : pyval)
    : M (pyval + pyval) :=
  if String.eqb (ce_api_key env) "" then ret (inl (mock_company_data company_name))
  else try_ (d <- parallel_research pv ;; ret (inl d))
            (fun e => body <- error_body ("Parallel AI Failure: " +:+ e) ;;
                      ret (inr (status_body 500 body))).

Definition company_handler (env : company_env) (fl : faults) (pv : parallel_provider)
    (event : pyval) : M pyval :=
  _ <- lift (json_dumps None 0 event) ;;     (* print(f"Received event: {json.dumps(event)}") *)
  company_url <- lift (pyget event "company_url" PNone) ;;
  company_name <- lift (pyget event "company_name" PNone) ;;
  session_id <- lift (pyget event "session_id" PNone) ;;
  if String.eqb (ce_table_name env) "" then
    ret (status_body 500 "COMPANY_TABLE_NAME environment variable not set")
  else if negb (truthy company_url) && negb (truthy company_name) then
    body <- error_body "Either company_url or company_name is required" ;;
    ret (status_body 400 body)
  else
    cached <- company_cache_step env fl company_url session_id ;;
    match cached with
    | Some r => ret r
    | None =>
      fetched <- company_fetch env pv company_name ;;
      match fetched with
      | inr r => ret r
      | inl company_data => save_and_link env fl company_url company_name session_id company_data
      end
    end.

(* ================================================================= *)
(** ** interviewer_research/app.py : [fetch_linkedin_profile] *)

(** The answer to [requests.get(url, params=params, timeout=60)] at attempt
    [i]: a [requests.exceptions.Timeout], another exception, or a response
    with its status code, text and [res.json()] (which may raise). *)
Inductive http_resp :=
| HTimeout
| HRaise (msg : string)
| HResp (status_code : Z) (text : string) (json : exn_or pyval).

Definition scrape_timeout_msg : string := "Timed out waiting for scrape".

(** The [for attempt in range(max_attempts)] loop; returns
    [(data, err)] with [err = None] on success. *)
Fixpoint fetch_attempts (get : nat -> http_resp) (fuel attempt : nat)
    : M (pyval * option string) :=
  match fuel with
  | O => ret (PNone, Some scrape_timeout_msg)
  | S f =>
    emit (EFetch "scrapingdog/profile") ;;;
    match get attempt with
    | HResp code text js =>
      if Z.eqb code 200 then
        match js with
        | Ok v => ret (v, None)
        | Exn e => ret (PNone, Some e)          (* except Exception as e *)
        end
      else if Z.eqb code 202 then
        emit (ESleep 10) ;;; fetch_attempts get f (S attempt)
      else ret (PNone, Some (pretty code +:+ ": " +:+ text))
    | HTimeout => emit (ESleep 10) ;;; fetch_attempts get f (S attempt)
    | HRaise e => ret (PNone, Some e)
    end
  end.

Definition linkedin_max_attempts : nat := 15.

Definition fetch_linkedin_profile (get : nat -> http_resp) : M (pyval * option string) :=
  fetch_attempts get linkedin_max_attempts 0.

(** Counting the requests and the seconds slept in a trace. *)
Fixpoint count_fetch (l : list event) : nat :=
  match l with
  | [] => 0
  | EFetch _ :: r => S (count_fetch r)
  | _ :: r => count_fetch r
  end.

Fixpoint slept (l : list event) : nat :=
  match l with
  | [] => 0
  | ESleep n :: r => n + slept r
  | _ :: r => slept r
  end.

Fixpoint repeat_list {A} (n : nat) (l : list A) : list A :=
  match n with O => [] | S n' => app l (repeat_list n' l) end.

(* ================================================================= *)
(** ** interviewer_research/app.py : the other functions and the handler *)

(** [res.raise_for_status()]: an [HTTPError] for a 4xx or 5xx status. *)
Definition http_error (status_code : Z) : bool :=
  (400 <=? status_code)%Z && (status_code <? 600)%Z.

(** The answer to a [requests.get] or [requests.post] whose JSON body is
    then read: an exception, or a status code and [res.json()]. *)
Inductive api_resp :=
| ARaise (msg : string)
| AResp (status_code : Z) (json : exn_or pyval).

(** [res.raise_for_status(); data = res.json()]. *)
Definition api_json (r : api_resp) : M pyval :=
  match r with
  | ARaise e => raise e
  | AResp code js => if http_error code then raise ("HTTPError: " +:+ pretty code) else lift js
  end.

(** [v[k]] for a string key. *)
Definition py_item (v : pyval) (k : string) : exn_or pyval :=
  match v with
  | PDict d => match dget d k with Some x => Ok x | None => Exn ("KeyError: " +:+ py_repr (PStr k)) end
  | PList _ | PStr _ => Exn "TypeError: indices must be integers or slices, not str"
  | _ => Exn "TypeError: object is not subscriptable"
  end.

(** [v[0]]; the keys of a decoded JSON object are strings, so [d[0]] is a
    [KeyError]. *)
Definition py_index0 (v : pyval) : exn_or pyval :=
  match v with
  | PList (x :: _) => Ok x
  | PList [] => Exn "IndexError: list index out of range"
  | PStr (String c _) => Ok (PStr (String c EmptyString))
  | PStr EmptyString => Exn "IndexError: string index out of range"
  | PDict _ => Exn "KeyError: 0"
  | _ => Exn "TypeError: object is not subscriptable"
  end.

(** Lines 76-93, [find_linkedin_url(name, company)]: [name] and [company]
    only shape the query, so the search API's answer [search] stands for
    them. *)
Definition find_linkedin_url (search : api_resp) : M pyval :=
  try_ (emit (EFetch "scrapingdog/google") ;;;
        data <- api_json search ;;
        results <- lift (pyget data "organic_results" PNone) ;;
        if truthy results then
          first <- lift (py_index0 results) ;;
          lift (pyget first "link" PNone)
        else ret PNone)
       (fun e => emit (ELog ("Google search failed: " +:+ e)) ;;; ret PNone).

(** Lines 16-63, [generate_persona_profile(interviewer_data)]; [llm] is
    the chat completion API's answer. *)
Definition generate_persona_profile (llm : api_resp) (interviewer_data : pyval) : M pyval :=
  if negb (truthy interviewer_data) then ret PNone
  else
    _ <- lift (json_dumps None 0 interviewer_data) ;;   (* user_msg, line 40, outside the try *)
    try_ (emit (EFetch "openai/chat/completions") ;;;
          data <- api_json llm ;;
          choices <- lift (py_item data "choices") ;;
          c0 <- lift (py_index0 choices) ;;
          message <- lift (py_item c0 "message") ;;
          lift (py_item message "content"))
         (fun e => emit (ELog ("LLM Persona Generation Failed: " +:+ e)) ;;; ret PNone).

Definition linkedin_marker : string := "linkedin.com/in/".

(** A character of [[^/?]]. *)
Definition handle_char (c : ascii) : bool :=
  negb (Ascii.eqb c "/" || Ascii.eqb c "?").

(** The longest prefix made of [[^/?]] characters. *)
Fixpoint take_handle (s : string) : string :=
  match s with
  | String c r => if handle_char c then String c (take_handle r) else EmptyString
  | EmptyString => EmptyString
  end.

(** [m = re.search(r"linkedin\.com/in/([^/?]+)", s)] and [m.group(1)]:
    the leftmost position where the marker is followed by at least one
    [[^/?]] character; the group is the longest such run. *)
Fixpoint linkedin_search (s : string) : option string :=
  let here := if starts_with linkedin_marker s
              then match take_handle (drop (String.length linkedin_marker) s) with
                   | EmptyString => None
                   | h => Some h
                   end
              else None in
  match here with
  | Some h => Some h
  | None => match s with
            | EmptyString => None
            | String _ r => linkedin_search r
            end
  end.

(** Lines 66-73, [extract_linkedin_id(linkedin_url)]. *)
Definition extract_linkedin_id (linkedin_url : pyval) : exn_or (option string) :=
  if negb (truthy linkedin_url) then Ok None
  else match linkedin_url with
       | PStr s => Ok (linkedin_search s)
       | _ => Exn "TypeError: expected string or bytes-like object"
       end.

Record interviewer_env := {
  ie_table_name : string;   (* LINKEDIN_TABLE_NAME, stripped *)
  ie_now : Z                (* int(time.time()) *)
}.

(** The answers of the three external APIs in one invocation. *)
Record interviewer_provider := {
  ip_search : api_resp;            (* the Google search API *)
  ip_profile : nat -> http_resp;   (* the profile API, per attempt *)
  ip_llm : api_resp                (* the chat completion API *)
}.

Definition interviewer_optional (session_id : pyval) (status message : string) : pyval :=
  PDict [("statusCode", PInt 200); ("session_id", session_id);
         ("status", PStr status); ("message", PStr message)].

Definition interviewer_success (session_id : pyval) (linkedin_id : string) (linkedin_url : pyval) : pyval :=
  PDict [("statusCode", PInt 200); ("session_id", session_id);
         ("interviewer_linkedin_id", PStr linkedin_id);
         ("interviewer_linkedin_url", linkedin_url); ("status", PStr "SUCCESS")].

(** Lines 181-197, step 4 of [lambda_handler]: [true] on a cache hit. *)
Definition interviewer_cache_check (fl : faults) (linkedin_id : string) : M bool :=
  try_ (r <- get_item fl TLinkedin linkedin_id ;;
        ret (match r with Some _ => true | None => false end))
       (fun e => emit (ELog ("Cache check failed: " +:+ e)) ;;; ret false).

(** Lines 199-236, steps 5 to 7 of [lambda_handler]: the scrape, the LLM
    profile and the write.  The last log line of the source starts with an
    emoji, left out here. *)
Definition interviewer_fetch_and_store (env : interviewer_env) (fl : faults) (ip : interviewer_provider)
    (session_id linkedin_url : pyval) (linkedin_id : string) : M pyval :=
  fr <- fetch_linkedin_profile (ip_profile ip) ;;
  let '(research_data, err) := fr in
  let err_text := match err with Some e => e | None => "" end in
  if negb (String.eqb err_text "") then
    ret (interviewer_optional session_id "FAILED_OPTIONAL" ("Scraping failed: " +:+ err_text))
  else
  generated_profile <- generate_persona_profile (ip_llm ip) research_data ;;
  try_ (put_item fl TLinkedin [("linkedin_url", PStr linkedin_id); ("data", research_data);
                               ("persona_profile", generated_profile);
                               ("updated_at", PInt (ie_now env))])
       (fun e => emit (ELog ("Failed to store interviewer research: " +:+ e))) ;;;
  ret (interviewer_success session_id linkedin_id linkedin_url).

(** Lines 181-236, steps 4 to 7 of [lambda_handler]. *)
Definition interviewer_research_steps (env : interviewer_env) (fl : faults) (ip : interviewer_provider)
    (session_id linkedin_url : pyval) (linkedin_id : string) : M pyval :=
  cached <- interviewer_cache_check fl linkedin_id ;;
  if cached then ret (interviewer_success session_id linkedin_id linkedin_url)
  else interviewer_fetch_and_store env fl ip session_id linkedin_url linkedin_id.

(** Lines 131-236, [lambda_handler]. *)
Definition interviewer_handler (env : interviewer_env) (fl : faults) (ip : interviewer_provider)
    (event : pyval) : M pyval :=
  _ <- lift (json_dumps None 0 event) ;;     (* print(f"Received event: {json.dumps(event)}") *)
  if String.eqb (ie_table_name env) "" then ret (status_body 500 "LINKEDIN_TABLE_NAME not set")
  else
  interviewer_name <- lift (pyget event "interviewer_name" PNone) ;;
  cn <- lift (pyget event "company_name" PNone) ;;
  company_name <- (if truthy cn then ret cn else lift (pyget event "interviewer_company" PNone)) ;;
  url0 <- lift (pyget event "interviewer_linkedin_url" PNone) ;;
  session_id <- lift (pyget event "session_id" PNone) ;;
  if negb (truthy url0) && negb (truthy interviewer_name && truthy company_name) then
    ret (interviewer_optional session_id "SKIPPED" "No interviewer details provided")
  else
  linkedin_url <- (if truthy url0 then ret url0 else find_linkedin_url (ip_search ip)) ;;
  if negb (truthy linkedin_url) then
    ret (interviewer_optional session_id "FAILED_OPTIONAL" "LinkedIn profile not found")
  else
  lid <- lift (extract_linkedin_id linkedin_url) ;;
  let linkedin_id := match lid with Some h => h | None => "" end in
  if String.eqb linkedin_id "" then
    ret (interviewer_optional session_id "FAILED_OPTIONAL" "Invalid LinkedIn URL format")
  else
  interviewer_research_steps env fl ip session_id linkedin_url linkedin_id.

(** A search answer with one profile result. *)
Definition demo_search : api_resp :=
  AResp 200 (Ok (PDict [("organic_results",
                         PList [PDict [("title", PStr "Jane Doe - Acme");
                                       ("link", PStr "https://www.linkedin.com/in/jane-doe")]])])).

Definition demo_interviewer_env : interviewer_env :=
  {| ie_table_name := "interviewer-research"; ie_now := 1700000000 |}.

(** A scraped profile as the profile API returns it. *)
Definition demo_profile : pyval :=
  PDict [("fullName", PStr "Jane Doe"); ("headline", PStr "Engineering Manager at Acme");
         ("summary", PStr "Builds teams."); ("connections", PInt 500)].

Definition demo_llm : api_resp :=
  AResp 200 (Ok (PDict [("choices", PList [PDict [("message",
                                                   PDict [("content", PStr "## Bio")])]])])).

Definition demo_interviewer_provider : interviewer_provider :=
  {| ip_search := demo_search;
     ip_profile := fun _ => HResp 200 "" (Ok demo_profile);
     ip_llm := demo_llm |}.

(** Further inputs of the interviewer handler: the profile URL as an
    event field, a record already cached for its handle, a failing write
    of the LinkedIn table, a profile API that refuses the request, a
    search whose first result has an object as its [link], and an event
    with a name and a company but no URL. *)
Definition jane_url : string := "https://www.linkedin.com/in/jane-doe".
Definition jane_fields : list (string * pyval) :=
  [("session_id", PStr "s1"); ("interviewer_linkedin_url", PStr jane_url)].
Definition jane_cached_world : world :=
  mkWorld ∅ {[ "jane-doe" := {[ "linkedin_url" := PStr "jane-doe" ]} ]} ∅ [].
Definition linkedin_put_fault : faults :=
  {| f_get := fun _ => None;
     f_put := fun t => match t with
                       | TLinkedin => Some "ProvisionedThroughputExceededException"
                       | _ => None
                       end;
     f_update := fun _ => None |}.
Definition blocked_profile_provider : interviewer_provider :=
  {| ip_search := demo_search;
     ip_profile := fun _ => HResp 403 "Forbidden" (Exn "JSONDecodeError");
     ip_llm := demo_llm |}.
Definition object_link_provider : interviewer_provider :=
  {| ip_search := AResp 200 (Ok (PDict [("organic_results",
                                         PList [PDict [("link", PDict [("href", PStr jane_url)])]])]));
     ip_profile := fun _ => HResp 200 "" (Ok demo_profile);
     ip_llm := demo_llm |}.
Definition name_fields : list (string * pyval) :=
  [("session_id", PStr "s1"); ("interviewer_name", PStr "Jane Doe"); ("company_name", PStr "Acme")].
Definition demo_session_item : gmap string pyval :=
  {[ "session_id" := PStr "s1"; "job_description" := PStr "Backend Engineer role" ]}.

(* ================================================================= *)
(** ** persona_generator/app.py : [lambda_handler] *)

(** The prompt templates are the source's text; each double quote of the
    source is written as a backquote here and [q] puts it back. *)
Fixpoint q (s : string) : string :=
  match s with
  | EmptyString => EmptyString
  | String c r => String (if Ascii.eqb c "`"%char then dq else c) (q r)
  end.

(** [base_context]: text before the persona profile. *)
Definition tpl_identity : string := q "
You are now impersonating a REAL professional human interviewer.

This is not a role-play. This is an identity grounding task.

────────────────────────────────────
1. IDENTITY & STYLE (AUTHORITATIVE)
────────────────────────────────────
You MUST behave exactly as the following LinkedIn Person.
Your professional background, seniority, communication style, and decision-making approach must be reflected in everything you say.

# GENERATED PERSONA PROFILE (SOURCE OF TRUTH FOR PERSONALITY)
".

(** [base_context]: between the profile and the raw interviewer data. *)
Definition tpl_raw_data : string := q "

# RAW DATA (SUPPORTING EVIDENCE)
".

(** [base_context]: between the raw interviewer data and the company data. *)
Definition tpl_company : string := q "

FROM THIS DATA, INFER AND EMBODY:
- Your exact tone: Are you academic? Startup-gritty? Corporate-formal?
- Your seniority: Do not act junior if you are a VP. Do not act distant if you are a peer.
- Your values: What engineering/product principles matter to you personally?

STYLE GUIDELINES:
- Speak in FIRST PERSON (`I`, `me`, `my`) at all times.
- Be professional but conversational. Do not sound like a robot or a generic AI.
- You are busy but engaged.
- NEVER mention that you are an AI, a language model, or that you have `instructions`.
- NEVER mention that you are `reading from a file` or `have access to data`. Act as if this is your natural knowledge.

────────────────────────────────────
2. COMPANY CONTEXT
────────────────────────────────────
You represent the following company. Your expectations align with its culture and standards.

# COMPANY CONTEXT
".

(** [base_context]: between the company data and the job description. *)
Definition tpl_job : string := q "

────────────────────────────────────
3. JOB CONTEXT (PRIMARY SOURCE OF TRUTH)
────────────────────────────────────
You are evaluating the candidate for THIS SPECIFIC ROLE.

# JOB DESCRIPTION
".

(** [base_context]: between the job description and the resume. *)
Definition tpl_resume : string := q "

────────────────────────────────────
4. CANDIDATE INFO
────────────────────────────────────
You have reviewed their resume. Use this to conduct a targeted probe, not a generic sweep.

# CANDIDATE RESUME
".

(** [base_context]: after the resume. *)
Definition tpl_rules : string := q "

────────────────────────────────────
5. CRITICAL BEHAVIORAL RULES (STRICT)
────────────────────────────────────
YOU ARE A STRICT EVALUATOR. Your job is to gather CONCLUSIVE EVIDENCE.

ANTI-GUIDANCE RULES:
- NEVER give hints or help the candidate
- NEVER explain what you're looking for
- NEVER say `good answer` or validate responses
- If they struggle, note it internally but do NOT rescue them

ANTI-LOOP RULES:
- Ask maximum 2 follow-up questions on any single topic
- If still unclear after 2 attempts, move on and note the gap
- Do NOT repeat similar questions in different words

EVALUATION FOCUS:
- Gather EVIDENCE, not impressions
- Note specific examples, names, metrics, dates
- Silence is data - if they can't answer, that's conclusive
".

(** The suffix of [prompt_introduction] (lines 216-237). *)
Definition stage_introduction : string := q "
────────────────────────────────────
CURRENT STAGE: INTRODUCTION (0-15% of interview)
────────────────────────────────────
OBJECTIVE: Quick context gathering and claim identification.

YOUR TASKS:
1. Briefly introduce yourself (name, role, one sentence about your background)
2. State the purpose: `Today I'll be assessing your fit for [role]. This will be a structured conversation.`
3. Ask ONE open question: `Walk me through your background and what brings you to this role.`
4. LISTEN for claims to probe later:
   - Leadership claims → Note for behavioral stage
   - Technical expertise claims → Note for technical stage
   - Impact/metrics claims → Verify in technical stage

DO NOT:
- Spend more than 2-3 minutes on pleasantries
- Ask multiple ice-breaker questions
- Give any preview of what's coming

TRANSITION: Once you have their background summary, state `Let's dive into the technical details.`
".

(** The suffix of [prompt_technical] (lines 239-265). *)
Definition stage_technical : string := q "
────────────────────────────────────
CURRENT STAGE: TECHNICAL (15-70% of interview)
────────────────────────────────────
OBJECTIVE: Deep skill verification with challenge questions.

YOUR TASKS:
1. Compare their resume claims to job requirements → Find GAPS to probe
2. Ask about specific projects: `Tell me about [project X]. What was YOUR specific contribution?`
3. Go deep on technical decisions: `Why did you choose [technology X] over [alternative Y]?`
4. Challenge answers: `That sounds like a standard approach. What made YOUR implementation different?`
5. Test limits: `What went wrong? How did you debug it? What would you do differently?`

QUESTIONING PATTERN:
- Start broad → Drill down → Challenge → Assess response → Move on
- Maximum 2 follow-ups per topic, then move to next topic
- If they can't answer after 2 attempts, say `Let's move on` and note the gap

USE end_interview TOOL IF:
- Candidate cannot answer 3+ core technical questions → Strong signal of mismatch
- Candidate demonstrates exceptional depth early → May have conclusive positive evidence

DO NOT:
- Accept vague answers like `I worked on the backend`
- Let them dodge specifics about their contribution vs team's
- Explain concepts or help them understand questions
".

(** The suffix of [prompt_behavioral] (lines 267-297). *)
Definition stage_behavioral : string := q "
────────────────────────────────────
CURRENT STAGE: BEHAVIORAL (70-90% of interview)
────────────────────────────────────
OBJECTIVE: STAR method probes for evidence of competencies.

YOUR TASKS:
1. Probe leadership claims: `You mentioned leading a team. Describe a conflict you resolved.`
2. Use STAR framework silently - listen for:
   - Situation: Was it real and specific?
   - Task: What was THEIR responsibility?
   - Action: What did THEY do (not the team)?
   - Result: What was the measurable outcome?
3. If STAR is incomplete, ask ONE targeted follow-up: `What was the specific outcome?`
4. Test failure handling: `Tell me about a project that failed. What was your role in that?`

CHALLENGE WEAK ANSWERS:
- `You said the team succeeded. What did YOU specifically do?`
- `You mentioned communication issues. Give me a specific example.`
- `That result sounds like the team's. What was YOUR measurable impact?`

USE end_interview TOOL IF:
- Pattern of taking credit for team work without specifics
- Cannot provide any concrete behavioral examples
- Consistently strong STAR responses across multiple questions

DO NOT:
- Accept `we` answers without probing for `I`
- Let them skip the Result part of STAR
- Coach them on how to answer behavioral questions
".

(** The suffix of [prompt_conclusion] (lines 299-330). *)
Definition stage_conclusion : string := q "
────────────────────────────────────
CURRENT STAGE: CONCLUSION (90-100% of interview)
────────────────────────────────────
OBJECTIVE: Final assessment and wrap-up.

YOUR TASKS:
1. Ask if they have questions for you (maximum 2-3 questions allowed)
2. Answer their questions briefly and professionally
3. Thank them for their time
4. After the conclusion, USE THE end_interview TOOL with your decision

DECISION FRAMEWORK:
- strong_hire: Exceeded expectations in both technical AND behavioral
- hire: Met expectations in technical AND behavioral, no red flags
- no_hire: Significant gaps in technical OR behavioral, OR red flags
- strong_no_hire: Failed multiple technical questions OR major behavioral concerns

CONFIDENCE SCORING:
- 90-100: Very clear evidence, no ambiguity
- 70-89: Good evidence with minor gaps
- 50-69: Mixed signals, would benefit from another round
- Below 50: Insufficient information gathered

YOU MUST CALL end_interview TOOL before or immediately after saying goodbye.
This captures your assessment while the interview is fresh.

DO NOT:
- Give the candidate any feedback on their performance
- Hint at the outcome
- Ask additional evaluation questions in this stage
".

(** Lines 140-213. *)
Definition base_context (profile interviewer_json company_json job_description resume : string) : string :=
  tpl_identity +:+ profile +:+ tpl_raw_data +:+ interviewer_json +:+ tpl_company
  +:+ company_json +:+ tpl_job +:+ job_description +:+ tpl_resume +:+ resume +:+ tpl_rules.

(** Lines 119-125. *)
Definition fallback_profile (summary headline : string) : string :=
  nl +:+ "        ## Bio" +:+ nl +:+ "        " +:+ summary +:+ nl +:+ "        " +:+ nl
  +:+ "        ## Role" +:+ nl +:+ "        " +:+ headline +:+ nl +:+ "        ".

(** Lines 96-111. *)
Definition generic_persona : pyval :=
  PDict [("name", PStr "Alex Mercer");
         ("headline", PStr "Senior Engineering Manager");
         ("summary", PStr "Experienced engineering leader with over 15 years in software development, cloud architecture, and team building. Passionate about scalable systems and mentorship.");
         ("experience", PList [PDict [("title", PStr "Senior Engineering Manager");
                                      ("company", PStr "Tech Innovations Inc.");
                                      ("description", PStr "Leading cross-functional teams to deliver high-scale distributed systems.")]]);
         ("skills", PList [PStr "System Design"; PStr "Leadership"; PStr "Python"; PStr "Cloud Architecture"])].

Record persona_env := {
  pe_persona_table_name : string;   (* PERSONA_TABLE_NAME *)
  pe_company_table_name : string;   (* COMPANY_TABLE_NAME *)
  pe_linkedin_table_name : string;  (* LINKEDIN_TABLE_NAME *)
  pe_now : Z                        (* int(time.time()) *)
}.

Definition dflt_get (d : list (string * pyval)) (k : string) : pyval :=
  default PNone (dget d k).

(** Lines 32-51: [(session_id, linkedin_id, company_url)]; from a list of
    step results, the last truthy value of each key wins. *)
Definition resolve_step (acc : pyval * pyval * pyval) (item : pyval) : pyval * pyval * pyval :=
  match item with
  | PDict d =>
    let '(s, l, c) := acc in
    (if truthy (dflt_get d "session_id") then dflt_get d "session_id" else s,
     if truthy (dflt_get d "interviewer_linkedin_id") then dflt_get d "interviewer_linkedin_id" else l,
     if truthy (dflt_get d "company_url") then dflt_get d "company_url" else c)
  | _ => acc
  end.

Definition resolve_inputs (event : pyval) : pyval * pyval * pyval :=
  match event with
  | PList items => fold_left resolve_step items (PNone, PNone, PNone)
  | PDict d => (dflt_get d "session_id", dflt_get d "interviewer_linkedin_id", dflt_get d "company_url")
  | _ => (PNone, PNone, PNone)
  end.

(** Lines 78-111, the body of the contact-research [try]: returns
    [(interviewer_research, ai_generated_persona_profile)].  Only the
    store read can raise, before either variable is assigned. *)
Definition load_interviewer (fl : faults) (linkedin_id : pyval) : M (pyval * pyval) :=
  if truthy linkedin_id then
    k <- lift (key_of linkedin_id) ;;
    li_res <- get_item fl TLinkedin k ;;
    let item := default ∅ li_res in
    let raw_data := default (PDict []) (item !! "data") in
    let profile := default (PStr "") (item !! "persona_profile") in
    let research := match raw_data with
                    | PList (x :: _) => x
                    | _ => raw_data
                    end in
    ret (research, profile)
  else ret (generic_persona, PStr "").

(** Lines 116-125: the profile text substituted into the base context. *)
Definition persona_profile_text (interviewer_research profile : pyval) : M string :=
  if truthy profile then ret (py_str profile)
  else
    summary <- lift (pyget interviewer_research "summary" (PStr "Experienced Professional")) ;;
    headline <- lift (pyget interviewer_research "headline" (PStr "Hiring Manager")) ;;
    ret (fallback_profile (py_str summary) (py_str headline)).

(** Lines 128-137, the company-research [try]. *)
Definition load_company (fl : faults) (company_url : pyval) : M pyval :=
  if truthy company_url then
    k <- lift (key_of company_url) ;;
    co_res <- get_item fl TCompany k ;;
    ret (match co_res with
         | Some it => default (PDict []) (it !! "data")
         | None => PDict []
         end)
  else ret (PDict []).

Record prompts := {
  p_introduction : string;
  p_technical : string;
  p_behavioral : string;
  p_conclusion : string
}.

(** Lines 216-330. *)
Definition stage_prompts (base : string) : prompts :=
  {| p_introduction := base +:+ stage_introduction;
     p_technical := base +:+ stage_technical;
     p_behavioral := base +:+ stage_behavioral;
     p_conclusion := base +:+ stage_conclusion |}.

(** Lines 333-353: the attributes of the one [update_item]. *)
Definition prompt_update (ps : prompts) (now : Z) : list (string * pyval) :=
  [("prompt", PStr (p_introduction ps));
   ("prompt_introduction", PStr (p_introduction ps));
   ("prompt_technical", PStr (p_technical ps));
   ("prompt_behavioral", PStr (p_behavioral ps));
   ("prompt_conclusion", PStr (p_conclusion ps));
   ("status", PStr "READY");
   ("updated_at", PInt now)].

Definition ready_result (session_id : pyval) : pyval :=
  PDict [("statusCode", PInt 200); ("session_id", session_id); ("status", PStr "READY")].

(** Lines 139-330 as a whole: the four prompts, computed in the source's
    order of evaluation. *)
Definition build_prompts (fl : faults) (session_item : gmap string pyval)
    (linkedin_id company_url : pyval) : M prompts :=
  let job_description := default (PStr "") (session_item !! "job_description") in
  ir <- try_ (load_interviewer fl linkedin_id)
             (fun e => emit (ELog ("Failed to load contact research: " +:+ e)) ;;; ret (PDict [], PStr "")) ;;
  let '(interviewer_research, profile) := ir in
  profile_text <- persona_profile_text interviewer_research profile ;;
  company_research <- try_ (load_company fl company_url)
                           (fun e => emit (ELog ("Failed to load company research: " +:+ e)) ;;; ret (PDict [])) ;;
  interviewer_json <- lift (json_dumps (Some 2) 0 interviewer_research) ;;
  company_json <- lift (json_dumps (Some 2) 0 company_research) ;;
  let resume := default (PStr "No resume provided.") (session_item !! "resume_text") in
  ret (stage_prompts (base_context profile_text interviewer_json company_json
                                   (py_str job_description) (py_str resume))).

(** Lines 26-330, up to the final write: [inl r] is an early return,
    [inr (key, session_id, prompts)] reaches line 333. *)
Definition persona_prepare (env : persona_env) (fl : faults) (event : pyval)
    : M (pyval + (string * pyval * prompts)) :=
  _ <- lift (json_dumps None 0 event) ;;     (* print(f"Received event: {json.dumps(event)}") *)
  if String.eqb (pe_persona_table_name env) "" || String.eqb (pe_company_table_name env) ""
     || String.eqb (pe_linkedin_table_name env) "" then
    ret (inl (status_body 500 "Missing table configuration"))
  else
  let '(session_id, linkedin_id, company_url) := resolve_inputs event in
  if negb (truthy session_id) then ret (inl (status_body 400 "session_id is required"))
  else
    sk <- lift (key_of session_id) ;;
    session_res <- get_item fl TPersona sk ;;
    match session_res with
    | None =>
      body <- error_body ("Session " +:+ py_str session_id +:+ " not found") ;;
      ret (inl (status_body 404 body))
    | Some session_item =>
      ps <- build_prompts fl session_item linkedin_id company_url ;;
      ret (inr (sk, session_id, ps))
    end.

(** Lines 333-364: the one [update_item] and the result. *)
Definition persona_persist (env : persona_env) (fl : faults) (sk : string) (session_id : pyval)
    (ps : prompts) : M pyval :=
  saved <- try_ (update_set fl TPersona sk (prompt_update ps (pe_now env)) ;;; ret None)
                (fun e => body <- error_body ("Failed to save persona: " +:+ e) ;;
                          ret (Some (status_body 500 body))) ;;
  match saved with
  | Some r => ret r
  | None => ret (ready_result session_id)
  end.

Definition persona_handler (env : persona_env) (fl : faults) (event : pyval) : M pyval :=
  x <- persona_prepare env fl event ;;
  match x with
  | inl r => ret r
  | inr (sk, session_id, ps) => persona_persist env fl sk session_id ps
  end.

(* ================================================================= *)
(** ** Reasoning about computations in [M] *)

Definition push_all (l : list event) (w : world) : world :=
  mkWorld (w_company w) (w_linkedin w) (w_persona w) (app (w_trace w) l).

(** [m_spec R P m]: every run of [m] relates its start and end worlds by
    [R], and a normal result satisfies [P]. *)
Definition m_spec {A} (R : world -> world -> Prop) (P : A -> Prop) (m : M A) : Prop :=
  forall w, R w (snd (m w)) /\ forall a, fst (m w) = Ok a -> P a.

(** The tables are unchanged (traces may grow). *)
Definition same_tables (w w' : world) : Prop :=
  w_company w' = w_company w /\ w_linkedin w' = w_linkedin w /\ w_persona w' = w_persona w.

Definition early_or_built (x : pyval + (string * pyval * prompts)) : Prop :=
  match x with
  | inl r => exists c b, r = status_body c b /\ c <> 200%Z
  | inr _ => True
  end.

Definition returns_ready (r : exn_or pyval) : Prop :=
  exists session_id, r = Ok (ready_result session_id).

(** What a READY result of the prompt builder guarantees about the store. *)
Definition ready_written (env : persona_env) (fl : faults) (w w' : world) : Prop :=
  exists sk ps it,
    f_update fl TPersona = None /\
    w_persona w' = <[sk := set_attrs (prompt_update ps (pe_now env))
                             (default {[pk_name TPersona := PStr sk]} (w_persona w !! sk))]>
                     (w_persona w) /\
    w_company w' = w_company w /\ w_linkedin w' = w_linkedin w /\
    w_persona w' !! sk = Some it /\
    it !! "prompt_introduction" = Some (PStr (p_introduction ps)) /\
    it !! "prompt_technical" = Some (PStr (p_technical ps)) /\
    it !! "prompt_behavioral" = Some (PStr (p_behavioral ps)) /\
    it !! "prompt_conclusion" = Some (PStr (p_conclusion ps)) /\
    it !! "status" = Some (PStr "READY").

(** What a failed final write leaves behind. *)
Definition write_failed (env : persona_env) (fl : faults) (event : pyval) (w : world)
    (r : exn_or pyval) (w' : world) : Prop :=
  w_persona w' = w_persona w /\ ~ returns_ready r /\
  forall x w1, persona_prepare env fl event w = (Ok (inr x), w1) ->
  exists body, r = Ok (status_body 500 body).

(** A session ["s1"] with a job description, and nothing else stored. *)
Definition demo_persona_env : persona_env :=
  {| pe_persona_table_name := "PersonaStorageTable"; pe_company_table_name := "CompanyResearchTable";
     pe_linkedin_table_name := "LinkedInResearchTable"; pe_now := 1700000000 |}.

Definition demo_world : world :=
  mkWorld ∅ ∅ {[ "s1" := {[ "session_id" := PStr "s1";
                           "job_description" := PStr "Backend Engineer role" ]} ]} [].


(** The company research of ["https://acme.com"] as the provider answers
    it: the JSON text [{"employees": 500}]. *)
Definition demo_company_env : company_env :=
  {| ce_table_name := "CompanyResearchTable"; ce_persona_table_name := "PersonaStorageTable";
     ce_api_key := "parallel-key"; ce_now := 1700000000 |}.

Definition employees_provider : parallel_provider :=
  {| pp_create := Ok "run_1";
     pp_result := fun _ => PollResult (Some (RStr (q "{`employees`: 500}"))) |}.

Definition acme_event : pyval :=
  PDict [("session_id", PStr "s1"); ("company_url", PStr "https://acme.com")].

(** The session-table read raises (e.g. throttling). *)
Definition persona_read_fault : faults :=
  {| f_get := fun t => match t with
                       | TPersona => Some "ProvisionedThroughputExceededException"
                       | _ => None
                       end;
     f_put := fun _ => None; f_update := fun _ => None |}.

(** An interviewer record whose scraped data is an empty list and whose
    persona profile is [None]: what interviewer_research stores when the
    profile API answers [[]] with status 200 ([generate_persona_profile([])]
    returns [None]). *)
Definition empty_profile_world : world :=
  mkWorld ∅ {[ "jdoe" := {[ "linkedin_url" := PStr "jdoe"; "data" := PList [];
                            "persona_profile" := PNone ]} ]}
          (w_persona demo_world) [].

(** A provider answer that means "still in progress": a 202 or a request
    timeout for the profile API, no (or an empty) output for a task run. *)
Definition in_progress (r : http_resp) : bool :=
  match r with
  | HTimeout => true
  | HResp code _ _ => Z.eqb code 202
  | HRaise _ => false
  end.

Definition poll_pending (p : poll_resp) : bool :=
  match p with
  | PollResult None => true
  | PollResult (Some r) => negb (output_truthy r)
  | PollRaise _ => false
  end.

(** Both storage writes of the company handler raise. *)
Definition storage_fault : faults :=
  {| f_get := fun _ => None;
     f_put := fun t => match t with TCompany => Some "ProvisionedThroughputExceededException" | _ => None end;
     f_update := fun t => match t with TPersona => Some "ConditionalCheckFailedException" | _ => None end |}.

(** The same faults, with the update outcomes replaced. *)
Definition with_update (fl : faults) (u : tid -> option string) : faults :=
  {| f_get := f_get fl; f_put := f_put fl; f_update := u |}.

(** Every [put_item] on the research table recorded in the trace has its
    key in the table. *)
Definition put_inv (w : world) : Prop :=
  forall k, In (EPut TCompany k) (w_trace w) -> is_Some (w_company w !! k).

Definition grows (w w' : world) : Prop :=
  (forall k, is_Some (w_company w !! k) -> is_Some (w_company w' !! k)) /\
  (put_inv w -> put_inv w').

(** The tables are unchanged and the trace only grows, by events that
    satisfy [P]. *)
Definition trace_ext (P : event -> Prop) (w w' : world) : Prop :=
  same_tables w w' /\ exists l, w_trace w' = app (w_trace w) l /\ Forall P l.

(** A trace event that is not a request to the LLM. *)
Definition not_llm (x : event) : Prop := x <> EFetch "openai/chat/completions".

Section MSpec.
Variable R : world -> world -> Prop.
Hypothesis R_refl : forall w, R w w.
Hypothesis R_trans : forall w1 w2 w3, R w1 w2 -> R w2 w3 -> R w1 w3.

Lemma spec_ret {A} (P : A -> Prop) (a : A) : P a -> m_spec R P (ret a).
  Proof. intros HP w. split; [apply R_refl|]. simpl. intros a' [= <-]. exact HP. Qed.

Lemma spec_lift {A} (P : A -> Prop) (r : exn_or A) :
    (forall a, r = Ok a -> P a) -> m_spec R P (lift r).
  Proof. intros HP w. split; [apply R_refl|]. exact HP. Qed.

Lemma spec_raise {A} (P : A -> Prop) (e : string) : m_spec R P (@raise A e).
  Proof. intros w. split; [apply R_refl|]. discriminate. Qed.

Lemma spec_bind {A B} (P : A -> Prop) (Q : B -> Prop) (m : M A) (k : A -> M B) :
    m_spec R P m -> (forall a, P a -> m_spec R Q (k a)) -> m_spec R Q (bind m k).
  Proof.
    intros Hm Hk w. unfold bind. specialize (Hm w).
    destruct (m w) as [[a|e] w1] eqn:E; simpl in *; destruct Hm as [HR HP].
    - destruct (Hk a (HP a eq_refl) w1) as [HR' HQ]. split; [eauto|exact HQ].
    - split; [exact HR|discriminate].
  Qed.

Lemma spec_bind_any {A B} (Q : B -> Prop) (m : M A) (k : A -> M B) :
    m_spec R (fun _ => True) m -> (forall a, m_spec R Q (k a)) -> m_spec R Q (bind m k).
  Proof. intros Hm Hk. apply (spec_bind (fun _ => True)); auto. Qed.

Lemma spec_try {A} (P : A -> Prop) (m : M A) (h : string -> M A) :
    m_spec R P m -> (forall e, m_spec R P (h e)) -> m_spec R P (try_ m h).
  Proof.
    intros Hm Hh w. unfold try_. specialize (Hm w).
    destruct (m w) as [[a|e] w1] eqn:E; simpl in *; destruct Hm as [HR HP].
    - split; [exact HR|exact HP].
    - destruct (Hh e w1) as [HR' HQ]. split; [eauto|exact HQ].
  Qed.

Lemma spec_weaken {A} (P Q : A -> Prop) (m : M A) :
    m_spec R P m -> (forall a, P a -> Q a) -> m_spec R Q m.
  Proof. intros Hm HPQ w. destruct (Hm w) as [HR HP]. split; [exact HR|eauto]. Qed.

Lemma spec_get_item (P : option (gmap string pyval) -> Prop) fl t k :
    (forall r, P r) -> m_spec R P (get_item fl t k).
  Proof. intros HP w. unfold get_item. destruct (f_get fl t); simpl; split; auto; discriminate. Qed.
End MSpec.


Lemma same_tables_refl w : same_tables w w.
Proof. repeat split. Qed.

Lemma same_tables_trans w1 w2 w3 : same_tables w1 w2 -> same_tables w2 w3 -> same_tables w1 w3.
Proof. intros (?&?&?) (?&?&?). repeat split; congruence. Qed.

Lemma spec_emit_same (P : unit -> Prop) e : P tt -> m_spec same_tables P (emit e).
Proof. intros HP w. split; [repeat split|]. simpl. intros [] _. exact HP. Qed.

Create HintDb mspec.
#[local] Hint Resolve same_tables_refl same_tables_trans spec_emit_same : mspec.

(** Walk a computation built from [bind], [try_], [if] and [match]; the
    goals left are the postconditions at [ret] and [lift]. *)
Ltac mspec_step :=
  match goal with
  | |- m_spec _ _ (bind _ _) => apply spec_bind_any
  | |- m_spec _ _ (try_ _ _) => apply spec_try
  | |- m_spec _ _ (lift _) => apply spec_lift
  | |- m_spec _ _ (ret _) => apply spec_ret
  | |- m_spec _ _ (raise _) => apply spec_raise
  | |- m_spec _ _ (get_item _ _ _) => apply spec_get_item
  | |- m_spec _ _ (emit _) => apply spec_emit_same
  | |- m_spec _ _ (if ?b then _ else _) => destruct b
  | |- m_spec _ _ (match ?x with _ => _ end) => destruct x
  | |- forall _, _ => intro
  | |- True => exact I
  | |- same_tables _ _ => apply same_tables_refl
  | H : same_tables ?a ?b |- same_tables ?a ?c => eapply same_tables_trans; [exact H|]
  end.

Ltac mspec := repeat mspec_step.

(* ================================================================= *)
(** ** The prompt builder writes once, atomically (C1) *)


Lemma persona_prepare_reads_only env fl event :
  m_spec same_tables early_or_built (persona_prepare env fl event).
Proof.
  unfold persona_prepare, build_prompts, load_interviewer, load_company,
    persona_profile_text, error_body.
  mspec.
  all: simpl; first [exact I | eexists _, _; split; [reflexivity|discriminate]].
Qed.


Lemma ready_not_status_body session_id c b : ready_result session_id <> status_body c b.
Proof. discriminate. Qed.

Lemma error_body_ok msg w : exists body, error_body msg w = (Ok body, w).
Proof. eexists. reflexivity. Qed.

Lemma set_attrs_prompt_update ps now base :
  set_attrs (prompt_update ps now) base !! "prompt_introduction" = Some (PStr (p_introduction ps)) /\
  set_attrs (prompt_update ps now) base !! "prompt_technical" = Some (PStr (p_technical ps)) /\
  set_attrs (prompt_update ps now) base !! "prompt_behavioral" = Some (PStr (p_behavioral ps)) /\
  set_attrs (prompt_update ps now) base !! "prompt_conclusion" = Some (PStr (p_conclusion ps)) /\
  set_attrs (prompt_update ps now) base !! "status" = Some (PStr "READY").
Proof.
  unfold set_attrs, prompt_update. simpl.
  repeat split; (rewrite !lookup_insert_ne by discriminate; rewrite lookup_insert_eq; reflexivity)
    || (rewrite lookup_insert_eq; reflexivity).
Qed.

(** C1: the prompt synthesis handler returns READY only after the one
    [update_item] of lines 333-353 has succeeded: the persona table is then
    the old one with that single write applied (the session item gets the
    four stage prompts and status READY together), and no other table is
    written.  When that write fails, the persona table is unchanged, the
    handler does not return READY, and once the prompts were built it
    returns statusCode 500. *)
Theorem persona_ready_only_after_atomic_write (env : persona_env) (fl : faults)
    (event : pyval) (w : world) :
  let '(r, w') := persona_handler env fl event w in
  (returns_ready r -> ready_written env fl w w') /\
  (forall e, f_update fl TPersona = Some e -> write_failed env fl event w r w').
Proof.
  destruct (persona_prepare_reads_only env fl event w) as [Hsame Hres].
  unfold persona_handler. unfold bind at 1.
  destruct (persona_prepare env fl event w) as [[[r0|[[sk sid] ps]]|e0] w1] eqn:Hp;
    simpl in Hsame, Hres; destruct Hsame as (Hc & Hl & Hpe).
  - destruct (Hres _ eq_refl) as (c & b & -> & _). simpl. split.
    + intros [sid Hr]. discriminate.
    + intros e _. unfold write_failed. split; [exact Hpe|]. split.
      * intros [sid Hr]. discriminate.
      * intros x w2 Hx; rewrite Hp in Hx; discriminate.
  - unfold persona_persist, try_, bind, update_set.
    destruct (f_update fl TPersona) as [e|] eqn:Hu; simpl.
    + split.
      * intros [sid' Hr]. discriminate.
      * intros e' [= <-]. unfold write_failed. split; [exact Hpe|]. split.
        -- intros [sid' Hr]. discriminate.
        -- intros x w2 _. eexists. reflexivity.
    + split.
      * intros _. rewrite Hpe.
        destruct (set_attrs_prompt_update ps (pe_now env)
                    (default {[pk_name TPersona := PStr sk]} (w_persona w !! sk)))
          as (H1 & H2 & H3 & H4 & H5).
        unfold ready_written. eexists sk, ps, _. split; [exact Hu|]. split; [reflexivity|].
        split; [exact Hc|]. split; [exact Hl|]. split; [apply lookup_insert_eq|].
        auto.
      * intros e [=].
  - simpl. split.
    + intros [sid Hr]. discriminate.
    + intros e _. unfold write_failed. split; [exact Hpe|]. split.
      * intros [sid Hr]. discriminate.
      * intros x w2 Hx; rewrite Hp in Hx; discriminate.
Qed.

Lemma persona_ready_only_after_atomic_write_witness :
  let '(r, w') := persona_handler demo_persona_env no_faults
                    (PDict [("session_id", PStr "s1")]) demo_world in
  returns_ready r /\ ready_written demo_persona_env no_faults demo_world w'.
Proof.
  pose proof (persona_ready_only_after_atomic_write demo_persona_env no_faults
                (PDict [("session_id", PStr "s1")]) demo_world) as H.
  destruct (persona_handler demo_persona_env no_faults (PDict [("session_id", PStr "s1")]) demo_world)
    as [r w'] eqn:E.
  assert (Hr : returns_ready r).
  { exists (PStr "s1"). vm_compute in E. injection E as <- _. reflexivity. }
  split; [exact Hr | exact (proj1 H Hr)].
Defined.

(** C2 (failing input): a session with no interviewer key whose linked
    company record holds a number.  The company research handler stores the
    provider's [{"employees": 500}] under ["https://acme.com"] and links
    session ["s1"] to it; the prompt builder, asked for ["s1"] with no
    [interviewer_linkedin_id], then raises [TypeError] at
    [json.dumps(company_research, indent=2)] (the number comes back from
    DynamoDB as a Decimal) and produces no prompt. *)
Theorem generic_persona_prompts_fail_on_decimal_company_data :
  let w1 := snd (company_handler demo_company_env no_faults employees_provider acme_event demo_world) in
  fst (persona_handler demo_persona_env no_faults acme_event (invocation w1))
  = Exn decimal_type_error.
Proof. vm_compute. reflexivity. Qed.

(** C3 (failing input): the session read of line 61 is outside any [try]:
    when it raises, the prompt builder ends with the exception instead of
    a result. *)
Theorem persona_session_read_exception_escapes :
  fst (persona_handler demo_persona_env persona_read_fault
         (PDict [("session_id", PStr "s1")]) demo_world)
  = Exn "ProvisionedThroughputExceededException".
Proof. vm_compute. reflexivity. Qed.

(** The fallback profile on dict-shaped research data: [summary] into the
    Bio section, [headline] into the Role section, each with its default
    when the key is missing. *)
Lemma persona_profile_text_dict d profile w :
  truthy profile = false ->
  persona_profile_text (PDict d) profile w =
  (Ok (fallback_profile (py_str (default (PStr "Experienced Professional") (dget d "summary")))
                        (py_str (default (PStr "Hiring Manager") (dget d "headline")))), w).
Proof.
  intros Hp. unfold persona_profile_text. rewrite Hp. simpl.
  destruct (dget d "summary"), (dget d "headline"); reflexivity.
Qed.

(** C9 (failing input): an interviewer record whose data is [[]] and whose
    profile is [None]: [interviewer_research] stays [[]] (lines 88-91) and
    [interviewer_research.get('summary', ...)] at line 121 raises
    [AttributeError], so no fallback profile is built. *)
Theorem fallback_profile_fails_on_empty_list_data :
  fst (persona_handler demo_persona_env no_faults
         (PDict [("session_id", PStr "s1"); ("interviewer_linkedin_id", PStr "jdoe")])
         empty_profile_world)
  = Exn "AttributeError: object has no attribute 'get'".
Proof. vm_compute. reflexivity. Qed.

(** C5 (counterexample): [company_url] is taken verbatim (line 132), so a
    caller-supplied URL key ["name:tech_corp"] is the very key the name
    ["Tech Corp"] falls back to. *)
Lemma url_key_collides_with_fallback_key :
  company_final_key (PStr "name:tech_corp") PNone = Ok (PStr "name:tech_corp") /\
  company_final_key PNone (PStr "Tech Corp") = Ok (PStr "name:tech_corp").
Proof. split; reflexivity. Qed.

(** C5 (amended): the fallback key of every company name starts with the
    reserved prefix ["name:"], so it differs from every key that does not
    start with that prefix, such as every http(s) URL key. *)
Theorem fallback_key_reserved_prefix (company_name : pyval) (k u : string) :
  fallback_key company_name = Ok k ->
  starts_with "name:" u = false ->
  starts_with "name:" k = true /\ k <> u.
Proof.
  destruct company_name; simpl; try discriminate.
  intros Hk Hu. injection Hk as <-.
  assert (Hp : starts_with "name:" ("name:" +:+ replace_space (str_lower s)) = true)
    by (destruct (replace_space (str_lower s)); reflexivity).
  split; [exact Hp |]. intros E. rewrite E in Hp. congruence.
Qed.

Lemma fallback_key_reserved_prefix_witness :
  fallback_key (PStr "Tech Corp") = Ok "name:tech_corp" /\
  starts_with "name:" "https://tech-corp.com" = false /\
  (starts_with "name:" "name:tech_corp" = true /\ "name:tech_corp" <> "https://tech-corp.com").
Proof.
  split; [reflexivity|]. split; [reflexivity|].
  apply (fallback_key_reserved_prefix (PStr "Tech Corp")); reflexivity.
Defined.

(** C7 (counterexample): a JSON string that is valid but not an object is
    returned as parsed: ["[1, 2]"] normalizes to a list, not a dictionary. *)
Lemma normalize_non_object_json :
  exists v, normalize (RStr "[1, 2]") = Ok v /\ forall d, v <> PDict d.
Proof. exists (PList [PInt 1; PInt 2]). split; [vm_compute; reflexivity | discriminate]. Qed.

(** C7 (amended): normalization dispatches on the payload's type and never
    raises.  A typed object yields [model_dump()] if it has one, else [.dict()] if it
    has one, else [{"raw_output": str(obj)}], and [{"raw_output": str(obj)}]
    when the extraction raises; a string yields [json.loads(s)] when it
    parses (whatever JSON value that is) and [{"raw_output": s}] otherwise. *)
Theorem normalize_dispatch_never_raises (loads : string -> option pyval) (r : raw_output) :
  normalize_with loads r =
  Ok match r with
     | RObj o =>
       match (if has_attr (o_model_dump o) then call_meth (o_model_dump o)
              else if has_attr (o_dict o) then call_meth (o_dict o)
              else Exn "no attribute") with
       | Ok v => v
       | Exn _ => PDict [("raw_output", PStr (o_str o))]
       end
     | RStr s => default (PDict [("raw_output", PStr s)]) (loads s)
     end.
Proof.
  destruct r as [s | o]; simpl.
  - destruct (loads s); reflexivity.
  - destruct (o_model_dump o) as [| e | v]; simpl; try reflexivity.
    destruct (o_dict o); reflexivity.
Qed.

Lemma normalize_dispatch_never_raises_witness :
  normalize (RStr "[1, 2]") = Ok (PList [PInt 1; PInt 2]) /\
  normalize (RStr "not json") = Ok (PDict [("raw_output", PStr "not json")]).
Proof.
  unfold normalize. split.
  - rewrite (normalize_dispatch_never_raises json_loads (RStr "[1, 2]")). vm_compute. reflexivity.
  - rewrite (normalize_dispatch_never_raises json_loads (RStr "not json")). vm_compute. reflexivity.
Defined.

Lemma push_all_push_all l1 l2 w : push_all l2 (push_all l1 w) = push_all (app l1 l2) w.
Proof. unfold push_all. simpl. rewrite app_assoc. reflexivity. Qed.

Lemma push_all_nil w : push_all [] w = w.
Proof. destruct w. unfold push_all. simpl. rewrite app_nil_r. reflexivity. Qed.

Lemma fetch_attempts_pending (get : nat -> http_resp) n i w :
  (forall j, in_progress (get j) = true) ->
  fetch_attempts get n i w =
  (Ok (PNone, Some scrape_timeout_msg),
   push_all (repeat_list n [EFetch "scrapingdog/profile"; ESleep 10]) w).
Proof.
  intros Hp. revert i w. induction n as [| n IH]; intros i w.
  - simpl. rewrite push_all_nil. reflexivity.
  - simpl. specialize (Hp i).
    assert (Hstep : forall w0, (emit (ESleep 10) ;;; fetch_attempts get n (S i)) w0 =
              (Ok (PNone, Some scrape_timeout_msg),
               push_all (app [ESleep 10] (repeat_list n [EFetch "scrapingdog/profile"; ESleep 10])) w0)).
    { intros w0. unfold bind, emit. rewrite IH. rewrite <- push_all_push_all. reflexivity. }
    unfold bind at 1. unfold emit at 1.
    destruct (get i) as [| e | code text js] eqn:G; simpl in Hp; try discriminate.
    + rewrite Hstep. unfold push_all. simpl. rewrite <- app_assoc. reflexivity.
    + apply Z.eqb_eq in Hp. subst code. simpl.
      rewrite Hstep. unfold push_all. simpl. rewrite <- app_assoc. reflexivity.
Qed.

Lemma poll_task_result_pending (pv : parallel_provider) n i w :
  (forall j, poll_pending (pp_result pv j) = true) ->
  poll_task_result pv n i w =
  (Exn "Parallel AI task timed out.",
   push_all (repeat_list n [EFetch "task_run.result"; ESleep 2]) w).
Proof.
  intros Hp. revert i w. induction n as [| n IH]; intros i w.
  - simpl. rewrite push_all_nil. reflexivity.
  - simpl. specialize (Hp i).
    assert (Hstep : forall w0, (emit (ESleep 2) ;;; poll_task_result pv n (S i)) w0 =
              (Exn "Parallel AI task timed out.",
               push_all (app [ESleep 2] (repeat_list n [EFetch "task_run.result"; ESleep 2])) w0)).
    { intros w0. unfold bind at 1, emit. rewrite IH. rewrite <- push_all_push_all. reflexivity. }
    unfold bind at 1. unfold emit at 1.
    destruct (pp_result pv i) as [e | [r |]] eqn:G; simpl in Hp; try discriminate.
    + apply negb_true_iff in Hp. rewrite Hp.
      rewrite Hstep. unfold push_all. simpl. rewrite <- app_assoc. reflexivity.
    + rewrite Hstep. unfold push_all. simpl. rewrite <- app_assoc. reflexivity.
Qed.

(** C4: when the provider reports "in progress" on every poll, both poll
    loops stop at their budget and report a timeout.  The profile fetch
    makes 15 requests, sleeps 10 seconds after each (150 seconds in all)
    and returns [(None, "Timed out waiting for scrape")].  The company
    research makes the task-run request and 30 polls, sleeps 2 seconds
    after each poll (60 seconds in all), and step 2 of the handler returns
    the 500 result of the [Parallel AI task timed out.] exception. *)
Theorem poll_loops_stop_at_budget (get : nat -> http_resp) (env : company_env)
    (pv : parallel_provider) (company_name : pyval) (run_id : string) (w : world) :
  (forall i, in_progress (get i) = true) ->
  (forall i, poll_pending (pp_result pv i) = true) ->
  pp_create pv = Ok run_id ->
  ce_api_key env <> "" ->
  let li := repeat_list linkedin_max_attempts [EFetch "scrapingdog/profile"; ESleep 10] in
  let co := EFetch "task_run.create" ::
            repeat_list company_max_retries [EFetch "task_run.result"; ESleep 2] in
  fetch_linkedin_profile get w = (Ok (PNone, Some scrape_timeout_msg), push_all li w) /\
  count_fetch li = 15 /\ slept li = 150 /\
  company_fetch env pv company_name w =
    (Ok (inr (status_body 500 (q "{`error`: `Parallel AI Failure: Parallel AI task timed out.`}"))),
     push_all co w) /\
  count_fetch co = 31 /\ slept co = 60.
Proof.
  intros Hg Hp Hc Hk li co.
  split; [apply fetch_attempts_pending; exact Hg |].
  split; [reflexivity |]. split; [reflexivity |].
  split; [| split; reflexivity].
  unfold company_fetch. destruct (String.eqb_spec (ce_api_key env) "") as [E|_]; [contradiction|].
  unfold try_, parallel_research, bind at 1. unfold bind at 1. unfold emit at 1. unfold bind at 1, lift at 1.
  rewrite Hc. rewrite poll_task_result_pending by exact Hp.
  change (mkWorld (w_company w) (w_linkedin w) (w_persona w) (app (w_trace w) [EFetch "task_run.create"]))
    with (push_all [EFetch "task_run.create"] w).
  rewrite push_all_push_all. reflexivity.
Qed.

Lemma poll_loops_stop_at_budget_witness :
  let li := repeat_list linkedin_max_attempts [EFetch "scrapingdog/profile"; ESleep 10] in
  let co := EFetch "task_run.create" ::
            repeat_list company_max_retries [EFetch "task_run.result"; ESleep 2] in
  let pv := {| pp_create := Ok "run_1"; pp_result := fun _ => PollResult None |} in
  fetch_linkedin_profile (fun _ => HResp 202 "Profile is being scraped" (Exn "")) demo_world
    = (Ok (PNone, Some scrape_timeout_msg), push_all li demo_world) /\
  count_fetch li = 15 /\ slept li = 150 /\
  company_fetch demo_company_env pv PNone demo_world =
    (Ok (inr (status_body 500 (q "{`error`: `Parallel AI Failure: Parallel AI task timed out.`}"))),
     push_all co demo_world) /\
  count_fetch co = 31 /\ slept co = 60.
Proof.
  apply (poll_loops_stop_at_budget (fun _ => HResp 202 "Profile is being scraped" (Exn ""))
           demo_company_env {| pp_create := Ok "run_1"; pp_result := fun _ => PollResult None |}
           PNone "run_1" demo_world).
  - intros i. reflexivity.
  - intros i. reflexivity.
  - reflexivity.
  - discriminate.
Defined.

Lemma save_and_link_reports_ok env fl url name sid data key w :
  company_final_key url name = Ok key ->
  let '(r, w') := save_and_link env fl url name sid data w in
  r = Ok (company_ok sid key) /\
  (forall e, f_put fl TCompany = Some e ->
     w_company w' = w_company w /\ w_persona w' = w_persona w /\
     exists msg, w_trace w' = app (w_trace w) [ELog ("Storage save or link failed: " +:+ msg)]) /\
  (forall e, f_update fl TPersona = Some e -> w_persona w' = w_persona w).
Proof.
  intros Hk. unfold save_and_link, try_, bind, lift, ret. rewrite Hk.
  unfold put_item, bind, lift, link_session, emit, ret, update_set. cbn.
  destruct (key_of key) as [k|ek]; cbn;
  [destruct (f_put fl TCompany) as [ep|] eqn:Ep; cbn;
   [| destruct (truthy sid && negb (String.eqb (ce_persona_table_name env) "")); cbn;
      [destruct (key_of sid) as [sk|es]; cbn;
       [destruct (f_update fl TPersona) eqn:Eu; cbn |] |]] |].
  all: repeat split; try (intros ? He); try congruence; eexists; reflexivity.
Qed.

(** C10: once the research data is in hand (no cache hit, fetch
    succeeded), the company handler returns statusCode 200 with the
    session id and the resolved key whatever the storage writes do.  When
    [put_item] raises, neither the research record nor the session link is
    written (both tables are as before step 3) and only a log line is
    added; when the link update raises, the session table is as before. *)
Theorem company_ok_despite_storage_failure (env : company_env) (fl : faults)
    (pv : parallel_provider) (event url name sid data key : pyval) (w w2 w3 : world) :
  (exists s, json_dumps None 0 event = Ok s) ->
  pyget event "company_url" PNone = Ok url ->
  pyget event "company_name" PNone = Ok name ->
  pyget event "session_id" PNone = Ok sid ->
  ce_table_name env <> "" ->
  truthy url || truthy name = true ->
  company_cache_step env fl url sid w = (Ok None, w2) ->
  company_fetch env pv name w2 = (Ok (inl data), w3) ->
  company_final_key url name = Ok key ->
  let '(r, w') := company_handler env fl pv event w in
  r = Ok (company_ok sid key) /\
  (forall e, f_put fl TCompany = Some e ->
     w_company w' = w_company w3 /\ w_persona w' = w_persona w3 /\
     exists msg, w_trace w' = app (w_trace w3) [ELog ("Storage save or link failed: " +:+ msg)]) /\
  (forall e, f_update fl TPersona = Some e -> w_persona w' = w_persona w3).
Proof.
  intros [s Hj] Hu Hn Hs Ht Hreq Hc Hf Hk.
  assert (Hb : negb (truthy url) && negb (truthy name) = false)
    by (destruct (truthy url), (truthy name); simpl in *; congruence).
  unfold company_handler. unfold bind at 1 2 3 4. unfold lift at 1 2 3 4.
  rewrite Hj, Hu, Hn, Hs.
  destruct (String.eqb_spec (ce_table_name env) "") as [E|_]; [contradiction|].
  rewrite Hb. unfold bind at 1. rewrite Hc. unfold bind at 1. rewrite Hf.
  apply save_and_link_reports_ok. exact Hk.
Qed.

Lemma company_ok_despite_storage_failure_witness :
  let w2 := snd (company_cache_step demo_company_env storage_fault (PStr "https://acme.com") (PStr "s1") demo_world) in
  let w3 := snd (company_fetch demo_company_env employees_provider PNone w2) in
  let '(r, w') := company_handler demo_company_env storage_fault employees_provider acme_event demo_world in
  r = Ok (company_ok (PStr "s1") (PStr "https://acme.com")) /\
  (forall e, f_put storage_fault TCompany = Some e ->
     w_company w' = w_company w3 /\ w_persona w' = w_persona w3 /\
     exists msg, w_trace w' = app (w_trace w3) [ELog ("Storage save or link failed: " +:+ msg)]) /\
  (forall e, f_update storage_fault TPersona = Some e -> w_persona w' = w_persona w3).
Proof.
  intros w2 w3.
  apply (company_ok_despite_storage_failure demo_company_env storage_fault employees_provider
           acme_event (PStr "https://acme.com") PNone (PStr "s1")
           (PDict [("employees", PInt 500)]) (PStr "https://acme.com") demo_world w2 w3).
  - eexists. vm_compute. reflexivity.
  - reflexivity.
  - reflexivity.
  - reflexivity.
  - discriminate.
  - reflexivity.
  - vm_compute. reflexivity.
  - vm_compute. reflexivity.
  - reflexivity.
Defined.

Lemma link_session_frame env fl (sid key : pyval) w :
  let '(r, w') := link_session env fl sid key w in
  w_company w' = w_company w /\ w_linkedin w' = w_linkedin w /\
  (forall s f, is_Some (w_persona w !! s) -> f <> "company_url" ->
     w_persona w' !! s ≫= (fun it => it !! f) = w_persona w !! s ≫= (fun it => it !! f)) /\
  (forall s, w_persona w !! s = None ->
     w_persona w' !! s = None \/
     w_persona w' !! s = Some (<["company_url" := to_dynamo key]> {["session_id" := PStr s]})).
Proof.
  unfold link_session, bind, lift, ret, update_set.
  destruct (truthy sid && negb (String.eqb (ce_persona_table_name env) "")); cbn;
  [destruct (key_of sid) as [sk|es]; cbn; [destruct (f_update fl TPersona); cbn |] |].
  all: try (split; [reflexivity|]; split; [reflexivity|]; split; [intros; reflexivity | intros; left; assumption]).
  split; [reflexivity|]. split; [reflexivity|]. split.
  - intros s f [it Hit] Hf. destruct (decide (s = sk)) as [<-|Hne].
    + rewrite lookup_insert_eq, Hit. cbn. rewrite lookup_insert_ne by congruence. reflexivity.
    + rewrite lookup_insert_ne by congruence. reflexivity.
  - intros s Hs. destruct (decide (s = sk)) as [<-|Hne].
    + right. rewrite lookup_insert_eq, Hs. reflexivity.
    + left. rewrite lookup_insert_ne by congruence. exact Hs.
Qed.

Lemma try_link_ok env fl sid key p w :
  exists w', try_ (link_session env fl sid key) (fun e => emit (ELog (p +:+ e))) w = (Ok tt, w').
Proof.
  unfold try_, link_session, bind, lift, ret, update_set, emit.
  destruct (truthy sid && negb (String.eqb (ce_persona_table_name env) "")); cbn;
  [destruct (key_of sid) as [sk|es]; cbn; [destruct (f_update fl TPersona); cbn |] |].
  all: eexists; reflexivity.
Qed.

Lemma cache_lookup_shape env fl url sid w :
  cache_lookup env fl url sid w =
  match key_of url with
  | Exn e => (Exn e, w)
  | Ok k =>
    match f_get fl TCompany with
    | Some e => (Exn e, w)
    | None =>
      match w_company w !! k with
      | None => (Ok None, w)
      | Some _ => (Ok (Some (company_ok sid url)),
                   snd (try_ (link_session env fl sid url)
                             (fun e => emit (ELog ("Failed to link session to cache: " +:+ e))) w))
      end
    end
  end.
Proof.
  unfold cache_lookup. unfold bind at 1, lift at 1.
  destruct (key_of url) as [k|e]; [|reflexivity].
  unfold bind at 1, get_item. destruct (f_get fl TCompany); [reflexivity|]. cbn.
  destruct (w_company w !! k); [|reflexivity].
  unfold bind. destruct (try_link_ok env fl sid url "Failed to link session to cache: " w) as [w' E].
  rewrite E. reflexivity.
Qed.

Lemma cache_step_update_indep env fl u1 u2 url sid w :
  let '(r1, w1) := company_cache_step env (with_update fl u1) url sid w in
  let '(r2, w2) := company_cache_step env (with_update fl u2) url sid w in
  r1 = r2 /\ (r1 = Ok None -> w1 = w2).
Proof.
  unfold company_cache_step. destruct (truthy url); [|split; reflexivity].
  unfold try_. rewrite !cache_lookup_shape. cbn.
  destruct (key_of url) as [k|e]; cbn; [|split; reflexivity].
  destruct (f_get fl TCompany); cbn; [split; reflexivity|].
  destruct (w_company w !! k); cbn; split; first [reflexivity | discriminate].
Qed.

Lemma save_and_link_result env fl url name sid data w :
  fst (save_and_link env fl url name sid data w) =
  Ok (company_ok sid (match company_final_key url name with Ok k => k | Exn _ => url end)).
Proof.
  unfold save_and_link, try_, bind, lift, ret.
  destruct (company_final_key url name) as [key|e]; cbn; [|reflexivity].
  unfold put_item, bind, lift, link_session, emit, ret, update_set. cbn.
  destruct (key_of key) as [k|ek]; cbn;
  [destruct (f_put fl TCompany) as [ep|]; cbn;
   [| destruct (truthy sid && negb (String.eqb (ce_persona_table_name env) "")); cbn;
      [destruct (key_of sid) as [sk|es]; cbn;
       [destruct (f_update fl TPersona); cbn |] |]] |].
  all: reflexivity.
Qed.

Lemma company_handler_update_indep env fl u1 u2 pv event w :
  fst (company_handler env (with_update fl u1) pv event w) =
  fst (company_handler env (with_update fl u2) pv event w).
Proof.
  unfold company_handler, bind, lift, ret. cbv beta iota.
  destruct (json_dumps None 0 event); [|reflexivity].
  destruct (pyget event "company_url" PNone) as [url|]; [|reflexivity].
  destruct (pyget event "company_name" PNone) as [name|]; [|reflexivity].
  destruct (pyget event "session_id" PNone) as [sid|]; [|reflexivity].
  destruct (String.eqb (ce_table_name env) ""); [reflexivity|].
  destruct (negb (truthy url) && negb (truthy name)); [reflexivity|].
  pose proof (cache_step_update_indep env fl u1 u2 url sid w) as H.
  destruct (company_cache_step env (with_update fl u1) url sid w) as [r1 w1].
  destruct (company_cache_step env (with_update fl u2) url sid w) as [r2 w2].
  destruct H as [<- Hw].
  destruct r1 as [[r|]|e]; [reflexivity| |reflexivity].
  rewrite (Hw eq_refl).
  destruct (company_fetch env pv name w2) as [[[d|r]|e] w3]; [|reflexivity|reflexivity].
  pose proof (save_and_link_result env (with_update fl u1) url name sid d w3) as E1.
  pose proof (save_and_link_result env (with_update fl u2) url name sid d w3) as E2.
  destruct (save_and_link env (with_update fl u1) url name sid d w3), 
           (save_and_link env (with_update fl u2) url name sid d w3).
  cbn in *. congruence.
Qed.

Lemma cache_link_failure_logged env fl url sid k it sk e w :
  key_of url = Ok k -> f_get fl TCompany = None -> w_company w !! k = Some it ->
  truthy sid && negb (String.eqb (ce_persona_table_name env) "") = true ->
  key_of sid = Ok sk -> f_update fl TPersona = Some e ->
  cache_lookup env fl url sid w =
  (Ok (Some (company_ok sid url)), push (ELog ("Failed to link session to cache: " +:+ e)) w).
Proof.
  intros Hk Hg Hi Hc Hs Hu. rewrite cache_lookup_shape, Hk, Hg, Hi. f_equal.
  unfold try_, link_session, bind, lift, update_set. rewrite Hc, Hs. cbn. rewrite Hu. reflexivity.
Qed.

Lemma save_link_failure_logged env fl url name sid data key k sk e w :
  company_final_key url name = Ok key -> key_of key = Ok k -> f_put fl TCompany = None ->
  truthy sid && negb (String.eqb (ce_persona_table_name env) "") = true ->
  key_of sid = Ok sk -> f_update fl TPersona = Some e ->
  let w' := snd (save_and_link env fl url name sid data w) in
  w_trace w' = app (w_trace w) [EPut TCompany k; ELog ("Storage save or link failed: " +:+ e)] /\
  w_persona w' = w_persona w.
Proof.
  intros Hf Hk Hp Hc Hs Hu. unfold save_and_link, try_, bind, lift, ret. rewrite Hf. cbn.
  unfold put_item, bind, lift, link_session, emit, ret, update_set. cbn.
  rewrite Hk. cbn. rewrite Hp. cbn. rewrite Hc. cbn. rewrite Hs. cbn. rewrite Hu. cbn.
  rewrite <- app_assoc. split; reflexivity.
Qed.

(** C8: the session link is a field-scoped update and its failure is not
    fatal.  [link_session] leaves the other tables, the other sessions and
    every field of an existing session record other than [company_url]
    unchanged (a missing session record is created with only its key and
    [company_url]); whether the link update raises or not does not change
    the company handler's result; a failed link is logged, at the cache
    hit as ["Failed to link session to cache: ..."] and after the save as
    ["Storage save or link failed: ..."], with the session table as before. *)
Theorem company_link_field_scoped_nonfatal (env : company_env) (fl : faults)
    (sid key : pyval) (w : world) :
  (let '(r, w') := link_session env fl sid key w in
   w_company w' = w_company w /\ w_linkedin w' = w_linkedin w /\
   (forall s f, is_Some (w_persona w !! s) -> f <> "company_url" ->
      w_persona w' !! s ≫= (fun it => it !! f) = w_persona w !! s ≫= (fun it => it !! f)) /\
   (forall s, w_persona w !! s = None ->
      w_persona w' !! s = None \/
      w_persona w' !! s = Some (<["company_url" := to_dynamo key]> {["session_id" := PStr s]}))) /\
  (forall pv event u1 u2,
     fst (company_handler env (with_update fl u1) pv event w) =
     fst (company_handler env (with_update fl u2) pv event w)) /\
  (forall url k it sk e,
     key_of url = Ok k -> f_get fl TCompany = None -> w_company w !! k = Some it ->
     truthy sid && negb (String.eqb (ce_persona_table_name env) "") = true ->
     key_of sid = Ok sk -> f_update fl TPersona = Some e ->
     cache_lookup env fl url sid w =
     (Ok (Some (company_ok sid url)), push (ELog ("Failed to link session to cache: " +:+ e)) w)) /\
  (forall url name data k sk e,
     company_final_key url name = Ok key -> key_of key = Ok k -> f_put fl TCompany = None ->
     truthy sid && negb (String.eqb (ce_persona_table_name env) "") = true ->
     key_of sid = Ok sk -> f_update fl TPersona = Some e ->
     let w' := snd (save_and_link env fl url name sid data w) in
     w_trace w' = app (w_trace w) [EPut TCompany k; ELog ("Storage save or link failed: " +:+ e)] /\
     w_persona w' = w_persona w).
Proof.
  split; [apply link_session_frame|].
  split; [intros; apply company_handler_update_indep|].
  split.
  - intros url k it sk e. apply cache_link_failure_logged.
  - intros url name data k sk e. apply save_link_failure_logged.
Qed.

Lemma company_link_field_scoped_nonfatal_witness :
  fst (company_handler demo_company_env (with_update no_faults (f_update storage_fault))
         employees_provider acme_event demo_world) =
  fst (company_handler demo_company_env (with_update no_faults (fun _ => None))
         employees_provider acme_event demo_world) /\
  (let w' := snd (save_and_link demo_company_env (with_update no_faults (f_update storage_fault))
                    (PStr "https://acme.com") PNone (PStr "s1") (PDict [("employees", PInt 500)])
                    demo_world) in
   w_trace w' = app (w_trace demo_world)
                  [EPut TCompany "https://acme.com";
                   ELog ("Storage save or link failed: " +:+ "ConditionalCheckFailedException")] /\
   w_persona w' = w_persona demo_world).
Proof.
  destruct (company_link_field_scoped_nonfatal demo_company_env
              (with_update no_faults (f_update storage_fault)) (PStr "s1") (PStr "https://acme.com")
              demo_world) as (_ & Hres & _ & Hsave).
  split.
  - apply (Hres employees_provider acme_event (f_update storage_fault) (fun _ => None)).
  - apply (Hsave (PStr "https://acme.com") PNone (PDict [("employees", PInt 500)])
             "https://acme.com" "s1" "ConditionalCheckFailedException");
    reflexivity.
Defined.

Lemma grows_refl w : grows w w.
Proof. split; auto. Qed.

Lemma grows_trans w1 w2 w3 : grows w1 w2 -> grows w2 w3 -> grows w1 w3.
Proof. intros [A1 B1] [A2 B2]. split; auto. Qed.

Lemma spec_emit_grows (P : unit -> Prop) e :
  (forall k, e <> EPut TCompany k) -> P tt -> m_spec grows P (emit e).
Proof.
  intros He HP w. split; [|intros [] _; exact HP].
  split; [simpl; auto|]. intros Hi k Hk. simpl in *.
  apply in_app_or in Hk as [Hk|[Hk|[]]]; [auto | exfalso; exact (He k Hk)].
Qed.

Lemma is_Some_insert (tb : gmap string (gmap string pyval)) k v j :
  is_Some (tb !! j) -> is_Some (<[k := v]> tb !! j).
Proof.
  intros H. destruct (decide (k = j)) as [<-|Hne].
  - rewrite lookup_insert_eq. eauto.
  - rewrite lookup_insert_ne by exact Hne. exact H.
Qed.

Lemma spec_put_item_grows (P : unit -> Prop) fl t attrs :
  P tt -> m_spec grows P (put_item fl t attrs).
Proof.
  intros HP w. unfold put_item, bind, lift, push.
  destruct (match dget attrs (pk_name t) with Some v => key_of v | None => _ end) as [k|e];
    [|split; [apply grows_refl | discriminate]].
  destruct (f_put fl t); [split; [apply grows_refl | discriminate]|].
  split; [|intros [] _; exact HP].
  destruct t; split; simpl; try (intros; auto; fail);
    try (intros j Hj; apply is_Some_insert; exact Hj).
  - intros Hi j Hj. apply in_app_or in Hj as [Hj|[Hj|[]]].
    + apply is_Some_insert. auto.
    + injection Hj as Hj. subst. cbn [w_company]. rewrite lookup_insert_eq. eauto.
  - intros Hi j Hj. apply in_app_or in Hj as [Hj|[Hj|[]]]; [auto | discriminate].
  - intros Hi j Hj. apply in_app_or in Hj as [Hj|[Hj|[]]]; [auto | discriminate].
Qed.

Lemma spec_update_set_grows (P : unit -> Prop) fl t k sets :
  P tt -> m_spec grows P (update_set fl t k sets).
Proof.
  intros HP w. unfold update_set, push.
  destruct (f_update fl t); [split; [apply grows_refl | discriminate]|].
  split; [|intros [] _; exact HP].
  destruct t; split; cbn [w_company w_trace set_table table_of];
    try (intros j Hj; first [apply is_Some_insert; exact Hj | exact Hj]);
    intros Hi j Hj; apply in_app_or in Hj as [Hj|[Hj|[]]];
    first [discriminate | apply is_Some_insert; auto | auto].
Qed.

Ltac gstep :=
  match goal with
  | |- m_spec _ _ (bind _ _) => eapply spec_bind_any
  | |- m_spec _ _ (try_ _ _) => eapply spec_try
  | |- m_spec _ _ (lift _) => eapply spec_lift
  | |- m_spec _ _ (ret _) => eapply spec_ret
  | |- m_spec _ _ (raise _) => eapply spec_raise
  | |- m_spec _ _ (get_item _ _ _) => eapply spec_get_item
  | |- m_spec _ _ (emit _) => apply spec_emit_grows; [intros ? ?; discriminate|]
  | |- m_spec _ _ (put_item _ _ _) => apply spec_put_item_grows
  | |- m_spec _ _ (update_set _ _ _ _) => apply spec_update_set_grows
  | |- m_spec _ _ (if ?b then _ else _) => destruct b
  | |- m_spec _ _ (match ?x with _ => _ end) => destruct x
  | |- forall w, grows w w => exact grows_refl
  | |- forall w1 w2 w3, grows w1 w2 -> grows w2 w3 -> grows w1 w3 => exact grows_trans
  | |- forall _, _ => intro
  | |- True => exact I
  end.

Lemma spec_poll_grows pv n i : m_spec grows (fun _ => True) (poll_task_result pv n i).
Proof.
  revert i. induction n as [| n IH]; intros i; simpl.
  - eapply spec_raise. exact grows_refl.
  - repeat gstep. all: apply IH.
Qed.

Lemma company_handler_grows env fl pv event :
  m_spec grows (fun _ => True) (company_handler env fl pv event).
Proof.
  unfold company_handler, company_cache_step, company_fetch, save_and_link,
    cache_lookup, parallel_research, link_session, error_body.
  repeat gstep. all: apply spec_poll_grows.
Qed.

Lemma count_fetch_app l1 l2 : count_fetch (app l1 l2) = count_fetch l1 + count_fetch l2.
Proof. induction l1 as [| [] l1 IH]; simpl; rewrite ?IH; reflexivity. Qed.

Lemma try_link_no_fetch env fl sid key p w :
  count_fetch (w_trace (snd (try_ (link_session env fl sid key)
                                  (fun e => emit (ELog (p +:+ e))) w))) =
  count_fetch (w_trace w).
Proof.
  unfold try_, link_session, bind, lift, ret, update_set, emit, push.
  destruct (truthy sid && negb (String.eqb (ce_persona_table_name env) "")); cbn;
  [destruct (key_of sid) as [sk|es]; cbn; [destruct (f_update fl TPersona); cbn |] |].
  all: rewrite ?count_fetch_app; cbn; lia.
Qed.

(** C6: if a first company research call stores its record under the URL
    [u] (its trace has the [put_item] under [u]), a second call with the
    same [company_url] (and a working table read) returns from the cache:
    statusCode 200 with its [session_id] and [u], and no request to the
    provider, whatever the provider would answer. *)
Theorem company_second_call_cache_hit (env : company_env) (fl1 fl2 : faults)
    (pv1 pv2 : parallel_provider) (ev1 ev2 sid2 : pyval) (u : string) (w0 w1 : world)
    (r1 : exn_or pyval) :
  pyget ev1 "company_url" PNone = Ok (PStr u) ->
  company_handler env fl1 pv1 ev1 (invocation w0) = (r1, w1) ->
  In (EPut TCompany u) (w_trace w1) ->
  (exists s, json_dumps None 0 ev2 = Ok s) ->
  pyget ev2 "company_url" PNone = Ok (PStr u) ->
  pyget ev2 "session_id" PNone = Ok sid2 ->
  ce_table_name env <> "" ->
  u <> "" ->
  f_get fl2 TCompany = None ->
  let '(r2, w2) := company_handler env fl2 pv2 ev2 (invocation w1) in
  r2 = Ok (company_ok sid2 (PStr u)) /\ count_fetch (w_trace w2) = 0.
Proof.
  intros _ H1 Hin [s Hj] Hu Hs Ht Hne Hg.
  assert (Hit : is_Some (w_company w1 !! u)).
  { destruct (company_handler_grows env fl1 pv1 ev1 (invocation w0)) as [[_ Hinv] _].
    rewrite H1 in Hinv. apply Hinv; [intros k []|exact Hin]. }
  destruct Hit as [it Hit].
  assert (Hn : exists name, pyget ev2 "company_name" PNone = Ok name).
  { destruct ev2 as [| | | | | | d]; try discriminate. simpl. destruct (dget d "company_name"); eauto. }
  destruct Hn as [name Hn].
  unfold company_handler, bind, lift, ret. cbv beta iota.
  rewrite Hj, Hu, Hn, Hs.
  destruct (String.eqb_spec (ce_table_name env) "") as [E|_]; [contradiction|].
  assert (Htu : truthy (PStr u) = true)
    by (simpl; destruct (String.eqb_spec u ""); [contradiction|reflexivity]).
  rewrite Htu. cbn [negb andb].
  unfold company_cache_step. rewrite Htu. unfold try_ at 1.
  rewrite cache_lookup_shape. cbn [key_of]. rewrite Hg. cbn [w_company invocation].
  rewrite Hit. split; [reflexivity|].
  rewrite try_link_no_fetch. reflexivity.
Qed.

Lemma company_second_call_cache_hit_witness :
  let ev2 := PDict [("session_id", PStr "s2"); ("company_url", PStr "https://acme.com")] in
  let w1 := snd (company_handler demo_company_env no_faults employees_provider acme_event
                   (invocation demo_world)) in
  let '(r2, w2) := company_handler demo_company_env no_faults employees_provider ev2 (invocation w1) in
  r2 = Ok (company_ok (PStr "s2") (PStr "https://acme.com")) /\ count_fetch (w_trace w2) = 0.
Proof.
  intros ev2 w1.
  apply (company_second_call_cache_hit demo_company_env no_faults no_faults employees_provider
           employees_provider acme_event ev2 (PStr "s2") "https://acme.com" demo_world w1
           (fst (company_handler demo_company_env no_faults employees_provider acme_event
                   (invocation demo_world)))).
  - reflexivity.
  - vm_compute. reflexivity.
  - vm_compute. repeat (first [left; reflexivity | right]).
  - eexists. vm_compute. reflexivity.
  - reflexivity.
  - reflexivity.
  - discriminate.
  - discriminate.
  - reflexivity.
Defined.

(* ================================================================= *)
(** ** interviewer_research: the LinkedIn handle of a URL *)

Lemma substring_all s : substring 0 (String.length s) s = s.
Proof. induction s as [| c s IH]; simpl; rewrite ?IH; reflexivity. Qed.

Lemma starts_with_marker x : starts_with linkedin_marker (linkedin_marker +:+ x) = true.
Proof. destruct x; reflexivity. Qed.

Lemma drop_marker x : drop (String.length linkedin_marker) (linkedin_marker +:+ x) = x.
Proof.
  unfold drop. simpl. rewrite Nat.sub_0_r. apply substring_all.
Qed.

Lemma take_handle_app h tail :
  forallb handle_char (list_ascii_of_string h) = true ->
  take_handle tail = "" -> take_handle (h +:+ tail) = h.
Proof.
  induction h as [| c h IH]; simpl; [auto|].
  intros Hh Ht. apply andb_true_iff in Hh as [Hc Hh]. rewrite Hc, IH; auto.
Qed.

Lemma take_handle_chars s : forallb handle_char (list_ascii_of_string (take_handle s)) = true.
Proof.
  induction s as [| c s IH]; simpl; [reflexivity|].
  destruct (handle_char c) eqn:Hc; simpl; [rewrite Hc, IH|]; reflexivity.
Qed.

Lemma linkedin_search_shape s h :
  linkedin_search s = Some h ->
  h <> "" /\ forallb handle_char (list_ascii_of_string h) = true.
Proof.
  induction s as [| c s IH]; [discriminate|]. cbn [linkedin_search].
  - destruct (starts_with linkedin_marker (String c s)).
    + destruct (take_handle (drop (String.length linkedin_marker) (String c s))) eqn:T.
      * exact IH.
      * intros [= <-]. split; [discriminate|]. rewrite <- T. apply take_handle_chars.
    + exact IH.
Qed.

Lemma handle_chars_no_sep h :
  forallb handle_char (list_ascii_of_string h) = true ->
  ~ In "/"%char (list_ascii_of_string h) /\ ~ In "?"%char (list_ascii_of_string h).
Proof.
  intros H. rewrite forallb_forall in H.
  split; intros Hi; specialize (H _ Hi); discriminate.
Qed.

Lemma linkedin_search_here c s h :
  starts_with linkedin_marker (String c s) = true ->
  take_handle (drop (String.length linkedin_marker) (String c s)) = h -> h <> "" ->
  linkedin_search (String c s) = Some h.
Proof.
  intros Hs Ht Hh. cbn [linkedin_search]. rewrite Hs, Ht.
  destruct h; [contradiction|reflexivity].
Qed.

Lemma linkedin_search_skip c s :
  starts_with linkedin_marker (String c s) = false ->
  linkedin_search (String c s) = linkedin_search s.
Proof. intros Hs. cbn [linkedin_search]. rewrite Hs. reflexivity. Qed.

Lemma starts_with_marker_not_l c s :
  Ascii.eqb c "l" = false -> starts_with linkedin_marker (String c s) = false.
Proof.
  intros Hc. unfold starts_with. cbn [String.length linkedin_marker substring String.eqb].
  rewrite Hc. reflexivity.
Qed.

(** [extract_linkedin_id] (interviewer_research lines 66-73) reads the
    handle of a profile URL: for a URL [p ++ "linkedin.com/in/" ++ h ++ tail]
    whose prefix [p] has no letter [l], whose handle [h] is non-empty and has
    no [/] and no [?], and whose [tail] is empty or starts with [/] or [?],
    the id is [h]. *)
Theorem extract_linkedin_id_of_profile_url (p h tail : string) :
  forallb (fun c => negb (Ascii.eqb c "l")) (list_ascii_of_string p) = true ->
  h <> "" ->
  ~ In "/"%char (list_ascii_of_string h) -> ~ In "?"%char (list_ascii_of_string h) ->
  (tail = "" \/ exists c r, tail = String c r /\ (c = "/"%char \/ c = "?"%char)) ->
  extract_linkedin_id (PStr (p +:+ "linkedin.com/in/" +:+ h +:+ tail)) = Ok (Some h).
Proof.
  intros Hp Hh Hs Hq Ht.
  change "linkedin.com/in/" with linkedin_marker.
  assert (Hhc : forallb handle_char (list_ascii_of_string h) = true).
  { apply forallb_forall. intros c Hc. unfold handle_char.
    destruct (Ascii.eqb_spec c "/"); [subst; contradiction|].
    destruct (Ascii.eqb_spec c "?"); [subst; contradiction|]. reflexivity. }
  assert (Htl : take_handle tail = "").
  { destruct Ht as [->|(c & r & -> & [-> | ->])]; reflexivity. }
  unfold extract_linkedin_id.
  replace (truthy (PStr _)) with true by (destruct p; reflexivity).
  cbn [negb]. f_equal.
  induction p as [| c p IH].
  - change ("" +:+ ?x) with x. change linkedin_marker with (String "l" "inkedin.com/in/").
    apply linkedin_search_here; [apply starts_with_marker | | exact Hh].
    change (take_handle (drop (String.length linkedin_marker) (linkedin_marker +:+ (h +:+ tail))) = h).
    rewrite drop_marker. apply take_handle_app; assumption.
  - cbn [list_ascii_of_string forallb] in Hp. apply andb_true_iff in Hp as [Hc Hp].
    change (String c p +:+ ?x) with (String c (p +:+ x)). rewrite linkedin_search_skip.
    + apply IH. exact Hp.
    + apply starts_with_marker_not_l. destruct (Ascii.eqb c "l"); [discriminate|reflexivity].
Qed.

Lemma extract_linkedin_id_of_profile_url_witness :
  extract_linkedin_id (PStr ("https://www." +:+ "linkedin.com/in/" +:+ "jane-doe" +:+ "/?trk=x"))
  = Ok (Some "jane-doe").
Proof.
  apply extract_linkedin_id_of_profile_url.
  - reflexivity.
  - discriminate.
  - vm_compute. intros H. repeat (destruct H as [H|H]; [discriminate|]). exact H.
  - vm_compute. intros H. repeat (destruct H as [H|H]; [discriminate|]). exact H.
  - right. exists "/"%char, "?trk=x". split; [reflexivity|left; reflexivity].
Defined.

(** [extract_linkedin_id] never gives an empty id, nor one holding [/] or
    [?]: the handler's cache key is one path segment. *)
Theorem extract_linkedin_id_handle (v : pyval) (h : string) :
  extract_linkedin_id v = Ok (Some h) ->
  h <> "" /\ ~ In "/"%char (list_ascii_of_string h) /\ ~ In "?"%char (list_ascii_of_string h).
Proof.
  unfold extract_linkedin_id. destruct (negb (truthy v)); [discriminate|].
  destruct v; try discriminate. intros [= Hs].
  apply linkedin_search_shape in Hs as [Hne Hc]. split; [exact Hne|].
  apply handle_chars_no_sep. exact Hc.
Qed.

Lemma extract_linkedin_id_handle_witness :
  extract_linkedin_id (PStr "https://www.linkedin.com/in/jane-doe/") = Ok (Some "jane-doe") /\
  ("jane-doe" <> "" /\ ~ In "/"%char (list_ascii_of_string "jane-doe") /\
   ~ In "?"%char (list_ascii_of_string "jane-doe")).
Proof.
  split; [vm_compute; reflexivity|].
  apply (extract_linkedin_id_handle (PStr "https://www.linkedin.com/in/jane-doe/")).
  vm_compute. reflexivity.
Defined.

(* ================================================================= *)
(** ** interviewer_research: the Google search *)

Ltac logs_only :=
  repeat first [ exact I | constructor; [cbv beta; eexists; reflexivity|] | constructor ].

(** [find_linkedin_url] (lines 76-93) never raises: whatever the search
    API does, it makes one request, writes nothing, logs at most its
    failure, and returns a value. *)
Theorem find_linkedin_url_never_raises (search : api_resp) (w : world) :
  exists v logs,
    find_linkedin_url search w = (Ok v, push_all (EFetch "scrapingdog/google" :: logs) w) /\
    Forall (fun e => exists m, e = ELog m) logs.
Proof.
  unfold find_linkedin_url, api_json, try_, bind, emit, lift, ret, raise.
  destruct search as [e | code js]; cbv beta iota.
  2: destruct (http_error code); cbv beta iota.
  3: destruct js as [data | e]; cbv beta iota.
  3: destruct (pyget data "organic_results" PNone) as [results | e]; cbv beta iota.
  3: destruct (truthy results); cbv beta iota.
  3: destruct (py_index0 results) as [first | e]; cbv beta iota.
  3: destruct (pyget first "link" PNone) as [link | e]; cbv beta iota.
  all: eexists _, _; split;
    [ unfold push_all; cbn [w_company w_linkedin w_persona w_trace];
      rewrite <- ?app_assoc; reflexivity
    | logs_only ].
Qed.

Lemma pyget_ok x k dflt y :
  pyget x k dflt = Ok y -> exists d, x = PDict d /\ default dflt (dget d k) = y.
Proof.
  destruct x; try discriminate. simpl. intros H. eexists; split; [reflexivity|].
  destruct (dget d k); simpl in *; congruence.
Qed.

Lemma py_index0_ok x y :
  py_index0 x = Ok y -> (exists rest, x = PList (y :: rest)) \/
                        (exists c s, x = PStr (String c s) /\ y = PStr (String c "")).
Proof.
  destruct x as [| | | | [|c s] | [|z l] |]; simpl; try discriminate; intros [= <-].
  - right. eauto.
  - left. eauto.
Qed.

(** [find_linkedin_url] returns the [link] of the first organic result of
    a search answered with a status below 400 (or from 600) and a JSON
    object whose [organic_results] is a non-empty list starting with an
    object; no [link] there gives [None]. *)
Theorem find_linkedin_url_first_link (code : Z) (d r : list (string * pyval)) (rest : list pyval)
    (w : world) :
  http_error code = false ->
  dget d "organic_results" = Some (PList (PDict r :: rest)) ->
  find_linkedin_url (AResp code (Ok (PDict d))) w =
  (Ok (default PNone (dget r "link")), push (EFetch "scrapingdog/google") w).
Proof.
  intros Hc Hd.
  unfold find_linkedin_url, api_json, try_, bind, emit, lift, ret, raise.
  rewrite Hc. cbn [pyget]. rewrite Hd. cbn [truthy is_emptyb negb py_index0 pyget].
  destruct (dget r "link"); reflexivity.
Qed.

(** Conversely, a truthy value returned by [find_linkedin_url] is always
    such a [link]: a failed request, an error status, a body that is not
    an object, or a first result that is not an object give [None]. *)
Theorem find_linkedin_url_link_source (search : api_resp) (w : world) (v : pyval) :
  fst (find_linkedin_url search w) = Ok v -> truthy v = true ->
  exists code d r rest,
    search = AResp code (Ok (PDict d)) /\ http_error code = false /\
    dget d "organic_results" = Some (PList (PDict r :: rest)) /\ dget r "link" = Some v.
Proof.
  unfold find_linkedin_url, api_json, try_, bind, emit, lift, ret, raise.
  destruct search as [e | code js]; cbv beta iota; [simpl; intros [= <-]; discriminate|].
  destruct (http_error code) eqn:Hc; cbv beta iota; [simpl; intros [= <-]; discriminate|].
  destruct js as [data | e]; cbv beta iota; [|simpl; intros [= <-]; discriminate].
  destruct (pyget data "organic_results" PNone) as [results | e] eqn:E1; cbv beta iota;
    [|simpl; intros [= <-]; discriminate].
  destruct (truthy results) eqn:Ht; cbv beta iota; [|simpl; intros [= <-]; discriminate].
  destruct (py_index0 results) as [first | e] eqn:E2; cbv beta iota;
    [|simpl; intros [= <-]; discriminate].
  destruct (pyget first "link" PNone) as [link | e] eqn:E3; cbv beta iota;
    [|simpl; intros [= <-]; discriminate].
  simpl. intros [= <-] Hv.
  apply pyget_ok in E1 as (d & -> & E1). apply pyget_ok in E3 as (r & -> & E3).
  apply py_index0_ok in E2 as [(rest & ->) | (c & s & _ & [=])].
  exists code, d, r, rest. split; [reflexivity|]. split; [exact Hc|]. split.
  destruct (dget d "organic_results"); simpl in E1; [congruence | discriminate].
  destruct (dget r "link"); simpl in E3; [congruence | subst; discriminate].
Qed.

Lemma find_linkedin_url_first_link_witness :
  find_linkedin_url demo_search demo_world =
  (Ok (PStr "https://www.linkedin.com/in/jane-doe"), push (EFetch "scrapingdog/google") demo_world).
Proof.
  apply (find_linkedin_url_first_link 200
           [("organic_results",
             PList [PDict [("title", PStr "Jane Doe - Acme");
                           ("link", PStr "https://www.linkedin.com/in/jane-doe")]])]
           [("title", PStr "Jane Doe - Acme"); ("link", PStr "https://www.linkedin.com/in/jane-doe")]
           []); reflexivity.
Defined.

Lemma find_linkedin_url_link_source_witness :
  exists code d r rest,
    demo_search = AResp code (Ok (PDict d)) /\ http_error code = false /\
    dget d "organic_results" = Some (PList (PDict r :: rest)) /\
    dget r "link" = Some (PStr "https://www.linkedin.com/in/jane-doe").
Proof.
  apply (find_linkedin_url_link_source demo_search demo_world); vm_compute; reflexivity.
Defined.

(* ================================================================= *)
(** ** JSON-shaped values serialize *)

Lemma all_ok_ok (l : list (exn_or string)) :
  Forall (fun x => exists s, x = Ok s) l -> exists r, all_ok l = Ok r.
Proof.
  induction 1 as [| x l [s ->] _ [r IH]]; simpl; [eauto|]. rewrite IH. eauto.
Qed.

Lemma json_dumps_is_json (v : pyval) :
  is_json v = true -> forall ind lvl, exists s, json_dumps ind lvl v = Ok s.
Proof.
  induction v as [| b | z | z | s | l IH | d IH] using pyval_ind'; simpl; intros Hv ind lvl.
  - eauto.
  - destruct b; eauto.
  - eauto.
  - discriminate.
  - eauto.
  - destruct (all_ok_ok (map (json_dumps ind (S lvl)) l)) as [r ->]; [|eauto].
    revert Hv. clear - IH. induction IH as [| x l Hx _ IHl]; simpl; intros Hv; constructor.
    + apply andb_true_iff in Hv as [Hx' _]. exact (Hx Hx' ind (S lvl)).
    + apply IHl. apply andb_true_iff in Hv as [_ Hl]. exact Hl.
  - match goal with |- context [all_ok ?m] => destruct (all_ok_ok m) as [r ->]; [|eauto] end.
    revert Hv. clear - IH. induction IH as [| [k x] d Hx _ IHd]; simpl; intros Hv; constructor.
    + apply andb_true_iff in Hv as [Hx' _]. simpl in Hx. destruct (Hx Hx' ind (S lvl)) as [s ->]. eauto.
    + apply IHd. apply andb_true_iff in Hv as [_ Hd]. exact Hd.
Qed.

(* ================================================================= *)
(** ** interviewer_research: the persona profile of the LLM *)

(** [generate_persona_profile] (lines 16-63) on JSON-shaped data never
    raises and writes nothing: falsy data gives [None] without a request;
    truthy data makes one request to the chat API and logs at most its
    failure. *)
Theorem generate_persona_profile_never_raises (llm : api_resp) (data : pyval) (w : world) :
  is_json data = true ->
  exists v logs,
    generate_persona_profile llm data w =
      (Ok v, push_all (app (if truthy data then [EFetch "openai/chat/completions"] else []) logs) w) /\
    Forall (fun e => exists m, e = ELog m) logs /\ (truthy data = false -> v = PNone).
Proof.
  intros Hj. unfold generate_persona_profile.
  destruct (truthy data) eqn:Ht; cbn [negb].
  2: { exists PNone, []. split; [|split; [constructor | auto]].
       rewrite push_all_nil. reflexivity. }
  destruct (json_dumps_is_json data Hj None 0) as [msg Hm]. rewrite Hm.
  unfold api_json, try_, bind, emit, lift, ret, raise.
  destruct llm as [e | code js]; cbv beta iota.
  2: destruct (http_error code); cbv beta iota.
  3: destruct js as [d | e]; cbv beta iota.
  3: destruct (py_item d "choices") as [choices | e]; cbv beta iota.
  3: destruct (py_index0 choices) as [c0 | e]; cbv beta iota.
  3: destruct (py_item c0 "message") as [message | e]; cbv beta iota.
  3: destruct (py_item message "content") as [content | e]; cbv beta iota.
  all: eexists _, _; split;
    [ unfold push_all; cbn [w_company w_linkedin w_persona w_trace app];
      rewrite <- ?app_assoc; reflexivity
    | split; [logs_only | discriminate] ].
Qed.

Lemma generate_persona_profile_never_raises_witness :
  let data := PDict [("name", PStr "Jane Doe")] in
  is_json data = true /\
  exists v logs,
    generate_persona_profile (AResp 500 (Ok (PDict []))) data demo_world =
      (Ok v, push_all (app (if truthy data then [EFetch "openai/chat/completions"] else []) logs)
               demo_world) /\
    Forall (fun e => exists m, e = ELog m) logs /\ (truthy data = false -> v = PNone).
Proof.
  intros data. split; [reflexivity|].
  apply (generate_persona_profile_never_raises (AResp 500 (Ok (PDict []))) data demo_world).
  reflexivity.
Defined.

(** On a successful chat completion, [generate_persona_profile] returns
    [data['choices'][0]['message']['content']]. *)
Theorem generate_persona_profile_content (code : Z) (d c0 m : list (string * pyval))
    (rest : list pyval) (content data : pyval) (w : world) :
  truthy data = true -> is_json data = true -> http_error code = false ->
  dget d "choices" = Some (PList (PDict c0 :: rest)) ->
  dget c0 "message" = Some (PDict m) -> dget m "content" = Some content ->
  generate_persona_profile (AResp code (Ok (PDict d))) data w =
  (Ok content, push (EFetch "openai/chat/completions") w).
Proof.
  intros Ht Hj Hc Hd Hm Hct. unfold generate_persona_profile. rewrite Ht. cbn [negb].
  destruct (json_dumps_is_json data Hj None 0) as [msg Hmsg]. rewrite Hmsg.
  unfold api_json, try_, bind, emit, lift, ret, raise. rewrite Hc. cbn [py_item].
  rewrite Hd. cbn [py_index0 py_item]. rewrite Hm. cbn [py_item]. rewrite Hct.
  reflexivity.
Qed.

Lemma generate_persona_profile_content_witness :
  generate_persona_profile
    (AResp 200 (Ok (PDict [("choices", PList [PDict [("message", PDict [("content", PStr "## Bio")])]])])))
    (PDict [("name", PStr "Jane Doe")]) demo_world =
  (Ok (PStr "## Bio"), push (EFetch "openai/chat/completions") demo_world).
Proof.
  apply (generate_persona_profile_content 200
           [("choices", PList [PDict [("message", PDict [("content", PStr "## Bio")])]])]
           [("message", PDict [("content", PStr "## Bio")])] [("content", PStr "## Bio")] []);
    reflexivity.
Defined.

(* ================================================================= *)
(** ** interviewer_research: the handler *)

Lemma pyget_dict d k : pyget (PDict d) k PNone = Ok (dflt_get d k).
Proof. unfold pyget, dflt_get. destruct (dget d k); reflexivity. Qed.

Lemma extract_linkedin_id_some v id :
  extract_linkedin_id v = Ok (Some id) -> truthy v = true /\ (id =? "") = false.
Proof.
  unfold extract_linkedin_id. destruct (truthy v); [|discriminate]. cbn [negb].
  destruct v; try discriminate. intros [= Hs]. split; [reflexivity|].
  apply linkedin_search_shape in Hs as [Hne _].
  destruct (String.eqb_spec id ""); [contradiction|reflexivity].
Qed.

Lemma interviewer_handler_url env fl ip d u id w :
  ie_table_name env <> "" -> is_json (PDict d) = true ->
  dflt_get d "interviewer_linkedin_url" = PStr u ->
  extract_linkedin_id (PStr u) = Ok (Some id) ->
  interviewer_handler env fl ip (PDict d) w =
  interviewer_research_steps env fl ip (dflt_get d "session_id") (PStr u) id w.
Proof.
  intros Hn Hj Hu Hx.
  destruct (extract_linkedin_id_some _ _ Hx) as [Ht Hid].
  destruct (json_dumps_is_json _ Hj None 0) as [s Hs].
  unfold interviewer_handler, bind, lift, ret. rewrite Hs.
  destruct (String.eqb_spec (ie_table_name env) "") as [E|_]; [contradiction|].
  rewrite !pyget_dict. cbv beta iota.
  destruct (truthy (dflt_get d "company_name")); cbv beta iota; rewrite ?pyget_dict; cbv beta iota;
  repeat progress (rewrite ?Hu, ?Ht, ?Hx, ?Hid; cbn [negb andb]; cbv beta iota);
  reflexivity.
Qed.

Lemma fetch_attempts_spec get n i :
  (forall j code text v, get j = HResp code text (Ok v) -> is_json v = true) ->
  m_spec same_tables (fun r => is_json (fst r) = true) (fetch_attempts get n i).
Proof.
  intros Hg. revert i. induction n as [| n IH]; intros i; simpl.
  - apply spec_ret; [exact same_tables_refl | reflexivity].
  - destruct (get i) as [| e | code text js] eqn:G; mspec; try reflexivity; try apply IH;
      eauto with mspec.
Qed.

Lemma fetch_attempts_ok get n i w : exists r, fst (fetch_attempts get n i w) = Ok r.
Proof.
  revert i w. induction n as [| n IH]; intros i w; simpl; [eauto|].
  unfold bind at 1, emit at 1. cbv beta iota.
  destruct (get i) as [| e | code text js]; cbv beta iota.
  - unfold bind, emit. apply IH.
  - eauto.
  - destruct (Z.eqb code 200); [destruct js; eauto|].
    destruct (Z.eqb code 202); [unfold bind, emit; apply IH | eauto].
Qed.

Lemma generate_persona_profile_tables llm data :
  m_spec same_tables (fun _ => True) (generate_persona_profile llm data).
Proof. unfold generate_persona_profile, api_json. mspec. Qed.

Lemma generate_persona_profile_ok llm data w :
  is_json data = true -> exists v, fst (generate_persona_profile llm data w) = Ok v.
Proof.
  intros Hj. unfold generate_persona_profile.
  destruct (truthy data); cbn [negb]; [|eexists; reflexivity].
  destruct (json_dumps_is_json data Hj None 0) as [msg Hm]. rewrite Hm.
  unfold api_json, try_, bind, emit, lift, ret, raise.
  destruct llm as [e | code js]; cbv beta iota.
  2: destruct (http_error code); cbv beta iota.
  3: destruct js as [d | e]; cbv beta iota.
  3: destruct (py_item d "choices") as [choices | e]; cbv beta iota.
  3: destruct (py_index0 choices) as [c0 | e]; cbv beta iota.
  3: destruct (py_item c0 "message") as [message | e]; cbv beta iota.
  3: destruct (py_item message "content") as [content | e]; cbv beta iota.
  all: eexists; reflexivity.
Qed.

Lemma research_steps_stored env fl ip sid url id w :
  f_put fl TLinkedin = None ->
  fst (interviewer_research_steps env fl ip sid url id w) = Ok (interviewer_success sid id url) ->
  is_Some (w_linkedin (snd (interviewer_research_steps env fl ip sid url id w)) !! id).
Proof.
  intros Hp. unfold interviewer_research_steps, interviewer_cache_check, interviewer_fetch_and_store,
    try_, get_item, bind, ret, emit, lift.
  cbv beta iota zeta.
  destruct (f_get fl TLinkedin) as [e|]; cbv beta iota.
  2: destruct (table_of TLinkedin w !! id) eqn:Hit; cbv beta iota; [intros _; exists g; exact Hit|].
  all: match goal with |- context [fetch_linkedin_profile ?g ?w1] =>
         destruct (fetch_linkedin_profile g w1) as [[[rd err]|e'] w2] eqn:F end;
       cbv beta iota; [|discriminate].
  all: destruct (negb ((match err with Some e => e | None => "" end) =? "")); cbv beta iota;
       [intros H; injection H; discriminate|].
  all: match goal with |- context [generate_persona_profile ?l ?d ?w1] =>
         destruct (generate_persona_profile l d w1) as [[g|e'] w3] eqn:G end;
       cbv beta iota; [|discriminate].
  all: unfold put_item, bind, lift; cbn [dget pk_name String.eqb Ascii.eqb Bool.eqb andb key_of];
       rewrite Hp; cbv beta iota; intros _.
  all: cbn [snd push set_table table_of w_linkedin]; rewrite lookup_insert_eq; eexists; reflexivity.
Qed.

Lemma research_steps_hit env fl ip sid url id it w :
  f_get fl TLinkedin = None -> w_linkedin w !! id = Some it ->
  interviewer_research_steps env fl ip sid url id w = (Ok (interviewer_success sid id url), w).
Proof.
  intros Hg Hit. unfold interviewer_research_steps, interviewer_cache_check, try_, get_item, bind, ret.
  rewrite Hg. cbn [table_of]. rewrite Hit. reflexivity.
Qed.

(** [lambda_handler] of interviewer_research (lines 131-197): when the
    event's URL yields a LinkedIn id that already has a record in the
    table, the handler returns the cached success result and leaves the
    world as it was: no request, no write, no log of an except branch. *)
Theorem interviewer_cache_hit env fl ip d u id it w :
  ie_table_name env <> "" -> is_json (PDict d) = true ->
  dflt_get d "interviewer_linkedin_url" = PStr u ->
  extract_linkedin_id (PStr u) = Ok (Some id) ->
  f_get fl TLinkedin = None -> w_linkedin w !! id = Some it ->
  interviewer_handler env fl ip (PDict d) w =
  (Ok (interviewer_success (dflt_get d "session_id") id (PStr u)), w).
Proof.
  intros Hn Hj Hu Hx Hg Hit. rewrite (interviewer_handler_url env fl ip d u id w Hn Hj Hu Hx).
  exact (research_steps_hit env fl ip _ _ id it w Hg Hit).
Qed.

(** Two invocations of the interviewer handler: once a first call for a
    LinkedIn id succeeded with a working [put_item], a second call for an
    URL with the same id (other provider answers, other event) is a cache
    hit that leaves the tables and the trace untouched. *)
Theorem interviewer_second_call_cache_hit env fl1 fl2 ip1 ip2 d1 d2 u1 u2 id w w1 :
  ie_table_name env <> "" -> is_json (PDict d1) = true -> is_json (PDict d2) = true ->
  dflt_get d1 "interviewer_linkedin_url" = PStr u1 -> extract_linkedin_id (PStr u1) = Ok (Some id) ->
  dflt_get d2 "interviewer_linkedin_url" = PStr u2 -> extract_linkedin_id (PStr u2) = Ok (Some id) ->
  f_put fl1 TLinkedin = None -> f_get fl2 TLinkedin = None ->
  interviewer_handler env fl1 ip1 (PDict d1) (invocation w) =
    (Ok (interviewer_success (dflt_get d1 "session_id") id (PStr u1)), w1) ->
  interviewer_handler env fl2 ip2 (PDict d2) (invocation w1) =
    (Ok (interviewer_success (dflt_get d2 "session_id") id (PStr u2)), invocation w1).
Proof.
  intros Hn Hj1 Hj2 Hu1 Hx1 Hu2 Hx2 Hp Hg H1.
  rewrite (interviewer_handler_url env fl1 ip1 d1 u1 id _ Hn Hj1 Hu1 Hx1) in H1.
  pose proof (research_steps_stored env fl1 ip1 (dflt_get d1 "session_id") (PStr u1) id
                (invocation w) Hp) as Hs.
  rewrite H1 in Hs. destruct (Hs eq_refl) as [it Hit].
  rewrite (interviewer_handler_url env fl2 ip2 d2 u2 id _ Hn Hj2 Hu2 Hx2).
  cbn [snd] in Hit. exact (research_steps_hit env fl2 ip2 _ _ id it (invocation w1) Hg Hit).
Qed.

Lemma trace_ext_refl P w : trace_ext P w w.
Proof. split; [apply same_tables_refl|]. exists []. rewrite app_nil_r. split; [reflexivity|constructor]. Qed.

Lemma trace_ext_trans P w1 w2 w3 : trace_ext P w1 w2 -> trace_ext P w2 w3 -> trace_ext P w1 w3.
Proof.
  intros [S1 (l1 & T1 & F1)] [S2 (l2 & T2 & F2)]. split; [eapply same_tables_trans; eauto|].
  exists (app l1 l2). rewrite T2, T1, app_assoc. split; [reflexivity|]. apply Forall_app. auto.
Qed.

Lemma spec_emit_ext (P : event -> Prop) (Q : unit -> Prop) e :
  P e -> Q tt -> m_spec (trace_ext P) Q (emit e).
Proof.
  intros He HQ w. split; [|intros [] _; exact HQ].
  split; [repeat split|]. exists [e]. split; [reflexivity|]. constructor; [exact He|constructor].
Qed.

Ltac tstep :=
  match goal with
  | |- m_spec _ _ (bind _ _) => eapply spec_bind_any
  | |- m_spec _ _ (try_ _ _) => eapply spec_try
  | |- m_spec _ _ (ret _) => eapply spec_ret
  | |- m_spec _ _ (lift _) => eapply spec_lift
  | |- m_spec _ _ (raise _) => eapply spec_raise
  | |- m_spec _ _ (get_item _ _ _) => eapply spec_get_item
  | |- m_spec _ _ (emit _) => apply spec_emit_ext; [discriminate | exact I]
  | |- m_spec _ _ (if ?b then _ else _) => destruct b
  | |- m_spec _ _ (match ?x with _ => _ end) => destruct x
  | |- forall w, trace_ext _ w w => apply trace_ext_refl
  | |- forall w1 w2 w3, trace_ext _ w1 w2 -> trace_ext _ w2 w3 -> trace_ext _ w1 w3 =>
      apply trace_ext_trans
  | |- forall _, _ => intro
  | |- True => exact I
  end.

Lemma fetch_attempts_not_llm get n i :
  m_spec (trace_ext not_llm) (fun _ => True) (fetch_attempts get n i).
Proof.
  revert i. induction n as [| n IH]; intros i; simpl; repeat tstep; apply IH.
Qed.

Lemma cache_check_miss fl id w :
  (f_get fl TLinkedin <> None \/ w_linkedin w !! id = None) ->
  exists logs, interviewer_cache_check fl id w = (Ok false, push_all logs w) /\
               Forall (fun e => exists m, e = ELog m) logs.
Proof.
  intros Hm. unfold interviewer_cache_check, try_, get_item, bind, ret, emit.
  destruct (f_get fl TLinkedin) as [e|] eqn:Hg; cbv beta iota.
  - exists [ELog ("Cache check failed: " +:+ e)]. split; [reflexivity|]. logs_only.
  - destruct Hm as [Hm | Hm]; [contradiction|]. cbn [table_of]. rewrite Hm.
    exists []. rewrite push_all_nil. split; [reflexivity | constructor].
Qed.

Lemma logs_not_llm logs : Forall (fun e => exists m, e = ELog m) logs -> Forall not_llm logs.
Proof. intros H. eapply Forall_impl; [exact H|]. intros x [m ->]. discriminate. Qed.

(** Lines 199-208: when the profile scrape ends with an error text, the
    handler returns [FAILED_OPTIONAL] with ["Scraping failed: " + err],
    writes no table and never calls the LLM. *)
Theorem interviewer_scrape_failure env fl ip d u id rd e w :
  ie_table_name env <> "" -> is_json (PDict d) = true ->
  dflt_get d "interviewer_linkedin_url" = PStr u -> extract_linkedin_id (PStr u) = Ok (Some id) ->
  (f_get fl TLinkedin <> None \/ w_linkedin w !! id = None) ->
  (forall w0, fst (fetch_linkedin_profile (ip_profile ip) w0) = Ok (rd, Some e)) -> e <> "" ->
  fst (interviewer_handler env fl ip (PDict d) (invocation w)) =
    Ok (interviewer_optional (dflt_get d "session_id") "FAILED_OPTIONAL" ("Scraping failed: " +:+ e)) /\
  same_tables w (snd (interviewer_handler env fl ip (PDict d) (invocation w))) /\
  ~ In (EFetch "openai/chat/completions") (w_trace (snd (interviewer_handler env fl ip (PDict d) (invocation w)))).
Proof.
  intros Hn Hj Hu Hx Hm Hf He.
  rewrite (interviewer_handler_url env fl ip d u id _ Hn Hj Hu Hx).
  destruct (interviewer_research_steps env fl ip (dflt_get d "session_id") (PStr u) id (invocation w))
    as [r w'] eqn:E.
  unfold interviewer_research_steps, bind at 1 in E.
  destruct (cache_check_miss fl id (invocation w) Hm) as (logs & Hc & Hl). rewrite Hc in E.
  cbv beta iota in E.
  unfold interviewer_fetch_and_store, bind at 1 in E.
  destruct (fetch_attempts_not_llm (ip_profile ip) linkedin_max_attempts 0
              (push_all logs (invocation w))) as [Hext _].
  pose proof (Hf (push_all logs (invocation w))) as Hr. unfold fetch_linkedin_profile in *.
  destruct (fetch_attempts (ip_profile ip) linkedin_max_attempts 0 (push_all logs (invocation w)))
    as [r2 w2] eqn:F.
  simpl in Hr, Hext. subst r2. cbv beta iota in E.
  destruct (String.eqb_spec e "") as [|_]; [contradiction|]. cbn [negb] in E. unfold ret in E.
  injection E as <- <-. cbn [fst snd]. split; [reflexivity|].
  destruct Hext as [(H1 & H2 & H3) (l & Ht & Hl2)]. split; [exact (conj H1 (conj H2 H3))|].
  rewrite Ht. cbn [push_all invocation w_trace app]. intros Hin.
  apply in_app_iff in Hin as [Hin | Hin].
  - apply logs_not_llm in Hl. rewrite List.Forall_forall in Hl. exact (Hl _ Hin eq_refl).
  - rewrite List.Forall_forall in Hl2. exact (Hl2 _ Hin eq_refl).
Qed.

Lemma fetch_attempts_tables get n i : m_spec same_tables (fun _ => True) (fetch_attempts get n i).
Proof. revert i. induction n as [| n IH]; intros i; simpl; mspec; apply IH. Qed.

(** Lines 214-236: a failing [put_item] of the research record is only
    logged; the handler still returns the success result, and the
    LinkedIn table is left unchanged. *)
Theorem interviewer_success_despite_put_failure env fl ip d u id rd e w :
  ie_table_name env <> "" -> is_json (PDict d) = true ->
  dflt_get d "interviewer_linkedin_url" = PStr u -> extract_linkedin_id (PStr u) = Ok (Some id) ->
  (f_get fl TLinkedin <> None \/ w_linkedin w !! id = None) ->
  (forall w0, fst (fetch_linkedin_profile (ip_profile ip) w0) = Ok (rd, None)) -> is_json rd = true ->
  f_put fl TLinkedin = Some e ->
  fst (interviewer_handler env fl ip (PDict d) w) =
    Ok (interviewer_success (dflt_get d "session_id") id (PStr u)) /\
  w_linkedin (snd (interviewer_handler env fl ip (PDict d) w)) = w_linkedin w /\
  In (ELog ("Failed to store interviewer research: " +:+ e))
     (w_trace (snd (interviewer_handler env fl ip (PDict d) w))).
Proof.
  intros Hn Hj Hu Hx Hm Hf Hrd Hp.
  rewrite (interviewer_handler_url env fl ip d u id _ Hn Hj Hu Hx).
  destruct (interviewer_research_steps env fl ip (dflt_get d "session_id") (PStr u) id w)
    as [r w'] eqn:E.
  unfold interviewer_research_steps, bind at 1 in E.
  destruct (cache_check_miss fl id w Hm) as (logs & Hc & _). rewrite Hc in E.
  cbv beta iota in E.
  unfold interviewer_fetch_and_store, bind at 1 in E.
  destruct (fetch_attempts_tables (ip_profile ip) linkedin_max_attempts 0 (push_all logs w))
    as [(H1 & H2 & H3) _].
  pose proof (Hf (push_all logs w)) as Hr. unfold fetch_linkedin_profile in *.
  destruct (fetch_attempts (ip_profile ip) linkedin_max_attempts 0 (push_all logs w))
    as [r2 w2] eqn:F.
  simpl in Hr, H1, H2, H3. subst r2. cbv beta iota in E. cbn [negb String.eqb] in E.
  unfold bind at 1 in E.
  destruct (generate_persona_profile_ok (ip_llm ip) rd w2 Hrd) as [g Hg].
  destruct (generate_persona_profile_tables (ip_llm ip) rd w2) as [(G1 & G2 & G3) _].
  destruct (generate_persona_profile (ip_llm ip) rd w2) as [r3 w3] eqn:G.
  simpl in Hg, G2. subst r3. cbv beta iota in E.
  unfold bind, try_, put_item, bind, lift, emit, ret in E.
  cbn [dget pk_name String.eqb Ascii.eqb Bool.eqb andb key_of] in E. rewrite Hp in E.
  injection E as <- <-. cbn [fst snd w_linkedin w_trace]. split; [reflexivity|].
  split; [rewrite G2, H2; reflexivity|].
  apply in_app_iff. right. left. reflexivity.
Qed.

Lemma cache_check_ok fl id w : exists b, fst (interviewer_cache_check fl id w) = Ok b.
Proof.
  unfold interviewer_cache_check, try_, get_item, bind, ret, emit.
  destruct (f_get fl TLinkedin); eexists; reflexivity.
Qed.

Lemma fetch_and_store_ok env fl ip sid url id w :
  (forall j code text v, ip_profile ip j = HResp code text (Ok v) -> is_json v = true) ->
  exists r, fst (interviewer_fetch_and_store env fl ip sid url id w) = Ok r /\
            pyget r "statusCode" PNone = Ok (PInt 200).
Proof.
  intros Hj. unfold interviewer_fetch_and_store, bind at 1.
  destruct (fetch_attempts_ok (ip_profile ip) linkedin_max_attempts 0 w) as [[rd err] Hr].
  destruct (fetch_attempts_spec (ip_profile ip) linkedin_max_attempts 0 Hj w) as [_ Hrd].
  unfold fetch_linkedin_profile.
  destruct (fetch_attempts (ip_profile ip) linkedin_max_attempts 0 w) as [r2 w2].
  simpl in Hr. subst r2. specialize (Hrd _ eq_refl). simpl in Hrd. cbv beta iota.
  destruct (negb _); [eexists; split; reflexivity|].
  unfold bind at 1. destruct (generate_persona_profile_ok (ip_llm ip) rd w2 Hrd) as [g Hg].
  destruct (generate_persona_profile (ip_llm ip) rd w2) as [r3 w3]. simpl in Hg. subst r3.
  cbv beta iota. unfold bind, try_, ret.
  destruct (put_item _ _ _ _) as [[[]|e] w4]; [|unfold emit]; eexists; split; reflexivity.
Qed.

(** An event with a non-empty LinkedIn URL string and JSON-serializable
    fields never makes the handler raise, whatever the store faults and
    the search and LLM answers, provided the profile API returns JSON
    values: every result carries [statusCode] 200. *)
Theorem interviewer_url_event_never_raises env fl ip d u w :
  ie_table_name env <> "" -> is_json (PDict d) = true ->
  dflt_get d "interviewer_linkedin_url" = PStr u -> u <> "" ->
  (forall j code text v, ip_profile ip j = HResp code text (Ok v) -> is_json v = true) ->
  exists r, fst (interviewer_handler env fl ip (PDict d) w) = Ok r /\
            pyget r "statusCode" PNone = Ok (PInt 200).
Proof.
  intros Hn Hj Hu Hne Hp.
  destruct (linkedin_search u) as [id|] eqn:Hs.
  - assert (Hx : extract_linkedin_id (PStr u) = Ok (Some id)).
    { unfold extract_linkedin_id. cbn [truthy]. destruct (String.eqb_spec u ""); [contradiction|].
      cbn [negb]. rewrite Hs. reflexivity. }
    rewrite (interviewer_handler_url env fl ip d u id w Hn Hj Hu Hx).
    unfold interviewer_research_steps, bind at 1.
    destruct (cache_check_ok fl id w) as [b Hb].
    destruct (interviewer_cache_check fl id w) as [r1 w1]. simpl in Hb. subst r1.
    destruct b; [eexists; split; reflexivity|]. apply fetch_and_store_ok. exact Hp.
  - destruct (json_dumps_is_json _ Hj None 0) as [s Hs'].
    unfold interviewer_handler, bind, lift, ret. rewrite Hs'.
    destruct (String.eqb_spec (ie_table_name env) "") as [E|_]; [contradiction|].
    assert (Ht : truthy (PStr u) = true).
    { cbn [truthy]. destruct (String.eqb_spec u ""); [contradiction|reflexivity]. }
    rewrite !pyget_dict. cbv beta iota.
    destruct (truthy (dflt_get d "company_name")); cbv beta iota; rewrite ?pyget_dict; cbv beta iota;
    repeat progress (rewrite ?Hu, ?Ht; cbn [negb andb]; cbv beta iota);
    unfold extract_linkedin_id; rewrite Ht; cbn [negb]; rewrite Hs; cbv beta iota;
    eexists; split; reflexivity.
Qed.

(** Lines 159-172 with line 72: without a URL in the event, a truthy search result
    that is not a string reaches [re.search] in [extract_linkedin_id]
    and the handler raises [TypeError]. *)
Theorem interviewer_non_string_link_raises env fl ip d v w :
  ie_table_name env <> "" -> is_json (PDict d) = true ->
  truthy (dflt_get d "interviewer_linkedin_url") = false ->
  truthy (dflt_get d "interviewer_name") = true -> truthy (dflt_get d "company_name") = true ->
  (forall w0, fst (find_linkedin_url (ip_search ip) w0) = Ok v) ->
  truthy v = true -> (forall s, v <> PStr s) ->
  fst (interviewer_handler env fl ip (PDict d) w) = Exn "TypeError: expected string or bytes-like object".
Proof.
  intros Hn Hj Hu Hi Hc Hf Hv Hs.
  destruct (json_dumps_is_json _ Hj None 0) as [s Hs'].
  unfold interviewer_handler, bind, lift, ret. rewrite Hs'.
  destruct (String.eqb_spec (ie_table_name env) "") as [E|_]; [contradiction|].
  rewrite !pyget_dict. cbv beta iota.
  repeat progress (rewrite ?Hc, ?Hu, ?Hi; cbn [negb andb]; cbv beta iota).
  pose proof (Hf w) as Hw. destruct (find_linkedin_url (ip_search ip) w) as [r w1].
  simpl in Hw. subst r. rewrite Hv. cbn [negb].
  unfold extract_linkedin_id. rewrite Hv. cbn [negb].
  destruct v; try reflexivity. destruct (Hs s0 eq_refl).
Qed.

Lemma all_ok_exn (l : list (exn_or string)) e :
  all_ok l = Exn e -> exists x, In x l /\ x = Exn e.
Proof.
  induction l as [| [s|e'] l IH]; simpl; [discriminate| |].
  - destruct (all_ok l) eqn:E; [discriminate|]. intros [= ->]. destruct (IH eq_refl) as (x & Hx & ->).
    eauto.
  - intros [= ->]. eauto.
Qed.

Lemma json_dumps_exn (v : pyval) ind lvl e :
  json_dumps ind lvl v = Exn e -> e = decimal_type_error.
Proof.
  revert ind lvl e.
  induction v as [| b | z | z | s | l IH | d IH] using pyval_ind'; simpl; intros ind lvl e.
  - discriminate.
  - destruct b; discriminate.
  - discriminate.
  - intros [= <-]. reflexivity.
  - discriminate.
  - destruct (all_ok (map (json_dumps ind (S lvl)) l)) eqn:E; [discriminate|]. intros [= <-].
    apply all_ok_exn in E as (x & Hx & ->). apply in_map_iff in Hx as (y & Hy & Hin).
    rewrite List.Forall_forall in IH. exact (IH y Hin _ _ _ Hy).
  - match goal with |- context [all_ok ?m] => destruct (all_ok m) eqn:E end; [discriminate|].
    intros [= <-]. apply all_ok_exn in E as (x & Hx & ->). apply in_map_iff in Hx as ([k y] & Hy & Hin).
    rewrite List.Forall_forall in IH. specialize (IH _ Hin). simpl in IH, Hy.
    destruct (json_dumps ind (S lvl) y) eqn:Ey; [discriminate|]. injection Hy as ->.
    exact (IH _ _ _ Ey).
Qed.

Lemma all_ok_some_exn (l : list (exn_or string)) e0 :
  In (Exn e0) l -> exists e, all_ok l = Exn e /\ In (Exn e) l.
Proof.
  induction l as [| [s|e'] l IH]; simpl; [intros []| |].
  - intros [H | H]; [discriminate|]. destruct (IH H) as (e & -> & He). eauto.
  - intros _. eauto.
Qed.

Lemma json_dumps_dict_decimal (d : list (string * pyval)) k z ind lvl :
  In (k, PDec z) d -> json_dumps ind lvl (PDict d) = Exn decimal_type_error.
Proof.
  intros Hin. simpl.
  match goal with |- context [all_ok ?m] =>
    destruct (all_ok_some_exn m decimal_type_error) as (e & -> & He) end.
  - apply in_map_iff. exists (k, PDec z). split; [reflexivity | exact Hin].
  - apply in_map_iff in He as ([k' y] & Hy & _). simpl in Hy.
    destruct (json_dumps ind (S lvl) y) eqn:Ey; [discriminate|]. injection Hy as ->.
    rewrite (json_dumps_exn _ _ _ _ Ey). reflexivity.
Qed.

Lemma generate_persona_profile_fst llm data w w' :
  fst (generate_persona_profile llm data w) = fst (generate_persona_profile llm data w').
Proof.
  unfold generate_persona_profile.
  destruct (truthy data); cbn [negb]; [|reflexivity].
  unfold api_json, try_, bind, emit, lift, ret, raise.
  destruct (json_dumps None 0 data); cbv beta iota; [|reflexivity].
  destruct llm as [e | code js]; cbv beta iota.
  2: destruct (http_error code); cbv beta iota.
  3: destruct js as [d | e]; cbv beta iota.
  3: destruct (py_item d "choices") as [choices | e]; cbv beta iota.
  3: destruct (py_index0 choices) as [c0 | e]; cbv beta iota.
  3: destruct (py_item c0 "message") as [message | e]; cbv beta iota.
  3: destruct (py_item message "content") as [content | e]; cbv beta iota.
  all: reflexivity.
Qed.

Lemma fetch_and_store_record env fl ip sid url id rd w :
  (forall w0, fst (fetch_linkedin_profile (ip_profile ip) w0) = Ok (rd, None)) -> is_json rd = true ->
  f_put fl TLinkedin = None ->
  exists g,
    fst (interviewer_fetch_and_store env fl ip sid url id w) = Ok (interviewer_success sid id url) /\
    w_linkedin (snd (interviewer_fetch_and_store env fl ip sid url id w)) =
      <[id := item_of [("linkedin_url", PStr id); ("data", rd); ("persona_profile", g);
                       ("updated_at", PInt (ie_now env))]]> (w_linkedin w) /\
    w_company (snd (interviewer_fetch_and_store env fl ip sid url id w)) = w_company w /\
    w_persona (snd (interviewer_fetch_and_store env fl ip sid url id w)) = w_persona w /\
    (forall w0, fst (generate_persona_profile (ip_llm ip) rd w0) = Ok g).
Proof.
  intros Hf Hrd Hp.
  destruct (interviewer_fetch_and_store env fl ip sid url id w) as [r w'] eqn:E.
  unfold interviewer_fetch_and_store, bind at 1 in E.
  destruct (fetch_attempts_tables (ip_profile ip) linkedin_max_attempts 0 w) as [(H1 & H2 & H3) _].
  pose proof (Hf w) as Hr. unfold fetch_linkedin_profile in *.
  destruct (fetch_attempts (ip_profile ip) linkedin_max_attempts 0 w) as [r2 w2] eqn:F.
  simpl in Hr, H1, H2, H3. subst r2. cbv beta iota in E. cbn [negb String.eqb] in E.
  unfold bind at 1 in E.
  destruct (generate_persona_profile_ok (ip_llm ip) rd w2 Hrd) as [g Hg].
  destruct (generate_persona_profile_tables (ip_llm ip) rd w2) as [(G1 & G2 & G3) _].
  pose proof (generate_persona_profile_fst (ip_llm ip) rd w2) as Hfst.
  destruct (generate_persona_profile (ip_llm ip) rd w2) as [r3 w3] eqn:G.
  simpl in Hg, G1, G2, G3, Hfst. subst r3. cbv beta iota in E.
  unfold bind, try_, put_item, bind, lift, emit, ret in E.
  cbn [dget pk_name String.eqb Ascii.eqb Bool.eqb andb key_of] in E. rewrite Hp in E.
  injection E as <- <-. exists g. cbn [fst snd push set_table w_linkedin w_company w_persona table_of].
  split; [reflexivity|]. rewrite G2, H2. split; [reflexivity|].
  split; [congruence|]. split; [congruence|].
  intros w0. rewrite <- (Hfst w0). reflexivity.
Qed.

Lemma interviewer_store_run env fl ip d u id rd w :
  ie_table_name env <> "" -> is_json (PDict d) = true ->
  dflt_get d "interviewer_linkedin_url" = PStr u -> extract_linkedin_id (PStr u) = Ok (Some id) ->
  (f_get fl TLinkedin <> None \/ w_linkedin w !! id = None) ->
  (forall w0, fst (fetch_linkedin_profile (ip_profile ip) w0) = Ok (rd, None)) -> is_json rd = true ->
  f_put fl TLinkedin = None ->
  exists g,
    fst (interviewer_handler env fl ip (PDict d) w) =
      Ok (interviewer_success (dflt_get d "session_id") id (PStr u)) /\
    w_linkedin (snd (interviewer_handler env fl ip (PDict d) w)) =
      <[id := item_of [("linkedin_url", PStr id); ("data", rd); ("persona_profile", g);
                       ("updated_at", PInt (ie_now env))]]> (w_linkedin w) /\
    w_company (snd (interviewer_handler env fl ip (PDict d) w)) = w_company w /\
    w_persona (snd (interviewer_handler env fl ip (PDict d) w)) = w_persona w /\
    (forall w0, fst (generate_persona_profile (ip_llm ip) rd w0) = Ok g).
Proof.
  intros Hn Hj Hu Hx Hm Hf Hrd Hp.
  rewrite (interviewer_handler_url env fl ip d u id _ Hn Hj Hu Hx).
  destruct (cache_check_miss fl id w Hm) as (logs & Hc & _).
  assert (E : interviewer_research_steps env fl ip (dflt_get d "session_id") (PStr u) id w =
              interviewer_fetch_and_store env fl ip (dflt_get d "session_id") (PStr u) id
                (push_all logs w)).
  { unfold interviewer_research_steps, bind at 1. rewrite Hc. reflexivity. }
  rewrite E.
  destruct (fetch_and_store_record env fl ip (dflt_get d "session_id") (PStr u) id rd
              (push_all logs w) Hf Hrd Hp) as (g & R1 & R2 & R3 & R4 & R5).
  exists g. repeat split; assumption.
Qed.

Lemma persona_profile_text_dict_ok d profile w :
  exists s, persona_profile_text (PDict d) profile w = (Ok s, w).
Proof.
  destruct (truthy profile) eqn:Hp.
  - eexists. unfold persona_profile_text. rewrite Hp. reflexivity.
  - eexists. apply persona_profile_text_dict. exact Hp.
Qed.

Lemma build_prompts_interviewer_decimal fl sitem id it dd k z w :
  f_get fl TLinkedin = None -> (id =? "") = false ->
  w_linkedin w !! id = Some it -> it !! "data" = Some (PDict dd) -> In (k, PDec z) dd ->
  fst (build_prompts fl sitem (PStr id) PNone w) = Exn decimal_type_error.
Proof.
  intros Hg Hid Hit Hd Hin.
  unfold build_prompts, bind at 1.
  assert (E : try_ (load_interviewer fl (PStr id))
                (fun e => emit (ELog ("Failed to load contact research: " +:+ e)) ;;;
                          ret (PDict [], PStr "")) w =
              (Ok (PDict dd, default (PStr "") (it !! "persona_profile")), w)).
  { unfold try_, load_interviewer, bind, lift, ret, get_item. cbn [truthy key_of].
    rewrite Hid. cbn [negb]. rewrite Hg. cbn [table_of]. rewrite Hit. cbn [default].
    unfold Datatypes.id. rewrite Hd. reflexivity. }
  rewrite E. cbv beta iota. unfold bind at 1.
  destruct (persona_profile_text_dict_ok dd (default (PStr "") (it !! "persona_profile")) w)
    as [s Hs]. rewrite Hs.
  unfold bind at 1, try_, load_company, lift. cbn [truthy]. unfold ret. cbv beta iota.
  rewrite (json_dumps_dict_decimal dd k z (Some 2) 0 Hin). reflexivity.
Qed.

(** The interviewer handler followed by persona_generator's handler: a
    scraped profile with an integer field is stored by [put_item] as a
    DynamoDB number, read back as a [Decimal], and the
    [json.dumps(interviewer_research, indent=2)] of line 155 raises, so
    the prompt synthesis for a session that uses this contact fails. *)
Theorem persona_raises_on_stored_interviewer_integer env fl ip d u id rdd k z w
    penv fl' sid sitem :
  ie_table_name env <> "" -> is_json (PDict d) = true ->
  dflt_get d "interviewer_linkedin_url" = PStr u -> extract_linkedin_id (PStr u) = Ok (Some id) ->
  (f_get fl TLinkedin <> None \/ w_linkedin w !! id = None) ->
  (forall w0, fst (fetch_linkedin_profile (ip_profile ip) w0) = Ok (PDict rdd, None)) ->
  is_json (PDict rdd) = true -> In (k, PInt z) rdd ->
  f_put fl TLinkedin = None ->
  pe_persona_table_name penv <> "" -> pe_company_table_name penv <> "" ->
  pe_linkedin_table_name penv <> "" ->
  f_get fl' TPersona = None -> f_get fl' TLinkedin = None ->
  sid <> "" -> w_persona w !! sid = Some sitem ->
  fst (persona_handler penv fl' (PDict [("session_id", PStr sid); ("interviewer_linkedin_id", PStr id)])
         (invocation (snd (interviewer_handler env fl ip (PDict d) w)))) = Exn decimal_type_error.
Proof.
  intros Hn Hj Hu Hx Hm Hf Hrd Hk Hp Hp1 Hp2 Hp3 Hg1 Hg2 Hsid Hs.
  destruct (interviewer_store_run env fl ip d u id (PDict rdd) w Hn Hj Hu Hx Hm Hf Hrd Hp)
    as (g & _ & R2 & _ & R4 & _).
  destruct (extract_linkedin_id_some _ _ Hx) as [_ Hid].
  set (w1 := invocation (snd (interviewer_handler env fl ip (PDict d) w))).
  assert (L : w_linkedin w1 !! id =
              Some (item_of [("linkedin_url", PStr id); ("data", PDict rdd); ("persona_profile", g);
                             ("updated_at", PInt (ie_now env))])).
  { unfold w1, invocation. cbn [w_linkedin]. rewrite R2. apply lookup_insert_eq. }
  assert (P : w_persona w1 !! sid = Some sitem).
  { unfold w1, invocation. cbn [w_persona]. rewrite R4. exact Hs. }
  clearbody w1.
  assert (B : fst (build_prompts fl' sitem (PStr id) PNone w1) = Exn decimal_type_error).
  { eapply (build_prompts_interviewer_decimal fl' sitem id _ _ k z w1 Hg2 Hid L).
    - reflexivity.
    - cbn [to_dynamo]. apply in_map_iff. exists (k, PInt z). split; [reflexivity | exact Hk]. }
  destruct (json_dumps_is_json (PDict [("session_id", PStr sid); ("interviewer_linkedin_id", PStr id)])
              eq_refl None 0) as [js Hjs].
  destruct (build_prompts fl' sitem (PStr id) PNone w1) as [r w2] eqn:Eb.
  cbn [fst] in B. subst r.
  apply String.eqb_neq in Hp1, Hp2, Hp3, Hsid.
  unfold persona_handler, persona_prepare, bind, lift, ret. rewrite Hjs.
  rewrite Hp1, Hp2, Hp3. cbn [orb].
  change (resolve_inputs (PDict [("session_id", PStr sid); ("interviewer_linkedin_id", PStr id)]))
    with (PStr sid, PStr id, PNone).
  cbn [truthy key_of negb]. rewrite Hsid. cbn [negb].
  unfold get_item. rewrite Hg1. cbn [table_of]. rewrite P. cbv beta iota.
  rewrite Eb. reflexivity.
Qed.


(** The interviewer handler on a cache miss with a successful scrape and a
    working [put_item] (lines 207-236): it returns the success result and
    stores the record [{linkedin_url, data, persona_profile, updated_at}]
    whose [persona_profile] is what [generate_persona_profile] returns on
    the scraped data; the other tables are unchanged. *)
Theorem interviewer_stores_research_record env fl ip d u id rd w :
  ie_table_name env <> "" -> is_json (PDict d) = true ->
  dflt_get d "interviewer_linkedin_url" = PStr u -> extract_linkedin_id (PStr u) = Ok (Some id) ->
  (f_get fl TLinkedin <> None \/ w_linkedin w !! id = None) ->
  (forall w0, fst (fetch_linkedin_profile (ip_profile ip) w0) = Ok (rd, None)) -> is_json rd = true ->
  f_put fl TLinkedin = None ->
  exists g,
    fst (interviewer_handler env fl ip (PDict d) w) =
      Ok (interviewer_success (dflt_get d "session_id") id (PStr u)) /\
    w_linkedin (snd (interviewer_handler env fl ip (PDict d) w)) =
      <[id := item_of [("linkedin_url", PStr id); ("data", rd); ("persona_profile", g);
                       ("updated_at", PInt (ie_now env))]]> (w_linkedin w) /\
    w_company (snd (interviewer_handler env fl ip (PDict d) w)) = w_company w /\
    w_persona (snd (interviewer_handler env fl ip (PDict d) w)) = w_persona w /\
    (forall w0, fst (generate_persona_profile (ip_llm ip) rd w0) = Ok g).
Proof. exact (interviewer_store_run env fl ip d u id rd w). Qed.

(* ================================================================= *)
(** ** persona_generator: the event shapes and the session item *)

Lemma all_ok_in (l : list (exn_or string)) r :
  all_ok l = Ok r -> forall x, In x l -> exists s, x = Ok s.
Proof.
  revert r. induction l as [| [s|e] l IH]; simpl; intros r H x Hx; [contradiction| |discriminate].
  destruct (all_ok l) eqn:E; [|discriminate].
  destruct Hx as [<- | Hx]; [eauto | exact (IH _ eq_refl x Hx)].
Qed.

Lemma json_dumps_ok_is_json (v : pyval) ind lvl s :
  json_dumps ind lvl v = Ok s -> is_json v = true.
Proof.
  revert ind lvl s.
  induction v as [| b | z | z | s0 | l IH | d IH] using pyval_ind'; simpl; intros ind lvl s H;
    try reflexivity; try discriminate.
  - destruct (all_ok (map (json_dumps ind (S lvl)) l)) as [r|] eqn:E; [|discriminate].
    apply forallb_forall. intros y Hy. rewrite List.Forall_forall in IH.
    destruct (all_ok_in _ _ E (json_dumps ind (S lvl) y)) as [s1 Hs1];
      [apply in_map; exact Hy|].
    exact (IH y Hy _ _ _ Hs1).
  - match goal with H : context [all_ok ?m] |- _ => destruct (all_ok m) as [r|] eqn:E end;
      [|discriminate].
    apply forallb_forall. intros [k y] Hy. rewrite List.Forall_forall in IH.
    destruct (all_ok_in _ _ E _ (in_map _ _ _ Hy)) as [s1 Hs1]. simpl in Hs1.
    destruct (json_dumps ind (S lvl) y) as [s2|] eqn:Ey; [|discriminate].
    exact (IH (k, y) Hy _ _ _ Ey).
Qed.

Lemma json_dumps_not_json (v : pyval) ind lvl :
  is_json v = false -> json_dumps ind lvl v = Exn decimal_type_error.
Proof.
  intros Hv. destruct (json_dumps ind lvl v) as [s|e] eqn:E.
  - apply json_dumps_ok_is_json in E. congruence.
  - apply json_dumps_exn in E. subst. reflexivity.
Qed.

Lemma load_interviewer_falsy fl l : truthy l = false -> load_interviewer fl l = load_interviewer fl PNone.
Proof. intros H. unfold load_interviewer. rewrite H. reflexivity. Qed.

Lemma load_company_falsy fl c : truthy c = false -> load_company fl c = load_company fl PNone.
Proof. intros H. unfold load_company. rewrite H. reflexivity. Qed.

Lemma bind_lift_ok {A B} (a : A) (k : A -> M B) w : bind (lift (Ok a)) k w = k a w.
Proof. reflexivity. Qed.

Lemma bind_lift_exn {A B} e (k : A -> M B) w : bind (lift (Exn e)) k w = (Exn e, w).
Proof. reflexivity. Qed.

Lemma persona_prepare_singleton_list env fl d w :
  persona_prepare env fl (PList [PDict d]) w = persona_prepare env fl (PDict d) w.
Proof.
  unfold persona_prepare.
  destruct (is_json (PDict d)) eqn:Hj.
  - destruct (json_dumps_is_json (PList [PDict d])) with (ind := @None nat) (lvl := 0) as [sL HL];
      [simpl in *; rewrite Hj; reflexivity|].
    destruct (json_dumps_is_json (PDict d) Hj None 0) as [sD HD].
    rewrite HL, HD, !bind_lift_ok.
    destruct ((pe_persona_table_name env =? "") || (pe_company_table_name env =? "")
              || (pe_linkedin_table_name env =? "")); [reflexivity|].
    change (resolve_inputs (PList [PDict d])) with (resolve_step (PNone, PNone, PNone) (PDict d)).
    unfold resolve_step, resolve_inputs.
    destruct (truthy (dflt_get d "session_id")) eqn:Hs; cbn [truthy negb]; rewrite ?Hs;
      [|reflexivity].
    cbn [negb]. unfold build_prompts.
    destruct (truthy (dflt_get d "interviewer_linkedin_id")) eqn:Hl;
      [|rewrite (load_interviewer_falsy fl _ Hl)];
    destruct (truthy (dflt_get d "company_url")) eqn:Hc;
      try rewrite (load_company_falsy fl _ Hc); reflexivity.
  - rewrite (json_dumps_not_json (PList [PDict d])), (json_dumps_not_json (PDict d)), !bind_lift_exn;
      [reflexivity | exact Hj | simpl in *; rewrite Hj; reflexivity].
Qed.

(** persona_generator lines 36-51: a Step Functions list holding one
    dict is handled exactly as that dict given as the event. *)
Theorem persona_singleton_list_event env fl d w :
  persona_handler env fl (PList [PDict d]) w = persona_handler env fl (PDict d) w.
Proof.
  unfold persona_handler, bind. rewrite persona_prepare_singleton_list. reflexivity.
Qed.

(** persona_generator lines 70-330: the four prompts read the session
    item only through [job_description] and [resume_text]; any other
    attribute of the item has no effect on them. *)
Theorem build_prompts_session_fields fl it k v l c :
  k <> "job_description" -> k <> "resume_text" ->
  build_prompts fl (<[k := v]> it) l c = build_prompts fl it l c.
Proof.
  intros H1 H2. unfold build_prompts.
  rewrite !lookup_insert_ne by congruence. reflexivity.
Qed.

(* ================================================================= *)
(** ** Witnesses of the handler properties *)

Ltac wit := first [ reflexivity | discriminate | (right; reflexivity)
                  | (intros ?; reflexivity) | solve [cbn; intuition] ].

Lemma interviewer_cache_hit_witness :
  interviewer_handler demo_interviewer_env no_faults demo_interviewer_provider (PDict jane_fields)
    jane_cached_world =
  (Ok (interviewer_success (PStr "s1") "jane-doe" (PStr jane_url)), jane_cached_world).
Proof.
  apply (interviewer_cache_hit demo_interviewer_env no_faults demo_interviewer_provider jane_fields
           jane_url "jane-doe" {[ "linkedin_url" := PStr "jane-doe" ]} jane_cached_world); wit.
Defined.

Lemma interviewer_second_call_cache_hit_witness :
  let w1 := snd (interviewer_handler demo_interviewer_env no_faults demo_interviewer_provider
                   (PDict jane_fields) (invocation demo_world)) in
  interviewer_handler demo_interviewer_env no_faults blocked_profile_provider (PDict jane_fields)
    (invocation w1) =
  (Ok (interviewer_success (PStr "s1") "jane-doe" (PStr jane_url)), invocation w1).
Proof.
  intros w1.
  apply (interviewer_second_call_cache_hit demo_interviewer_env no_faults no_faults
           demo_interviewer_provider blocked_profile_provider jane_fields jane_fields jane_url jane_url
           "jane-doe" demo_world w1); wit.
Defined.

Lemma interviewer_scrape_failure_witness :
  fst (interviewer_handler demo_interviewer_env no_faults blocked_profile_provider (PDict jane_fields)
         (invocation demo_world)) =
    Ok (interviewer_optional (PStr "s1") "FAILED_OPTIONAL" ("Scraping failed: " +:+ "403: Forbidden")) /\
  same_tables demo_world (snd (interviewer_handler demo_interviewer_env no_faults blocked_profile_provider
                                 (PDict jane_fields) (invocation demo_world))) /\
  ~ In (EFetch "openai/chat/completions")
       (w_trace (snd (interviewer_handler demo_interviewer_env no_faults blocked_profile_provider
                        (PDict jane_fields) (invocation demo_world)))).
Proof.
  apply (interviewer_scrape_failure demo_interviewer_env no_faults blocked_profile_provider jane_fields
           jane_url "jane-doe" PNone "403: Forbidden" demo_world); wit.
Defined.

Lemma interviewer_success_despite_put_failure_witness :
  fst (interviewer_handler demo_interviewer_env linkedin_put_fault demo_interviewer_provider
         (PDict jane_fields) demo_world) =
    Ok (interviewer_success (PStr "s1") "jane-doe" (PStr jane_url)) /\
  w_linkedin (snd (interviewer_handler demo_interviewer_env linkedin_put_fault demo_interviewer_provider
                     (PDict jane_fields) demo_world)) = w_linkedin demo_world /\
  In (ELog ("Failed to store interviewer research: " +:+ "ProvisionedThroughputExceededException"))
     (w_trace (snd (interviewer_handler demo_interviewer_env linkedin_put_fault demo_interviewer_provider
                      (PDict jane_fields) demo_world))).
Proof.
  apply (interviewer_success_despite_put_failure demo_interviewer_env linkedin_put_fault
           demo_interviewer_provider jane_fields jane_url "jane-doe" demo_profile
           "ProvisionedThroughputExceededException" demo_world); wit.
Defined.

Lemma interviewer_url_event_never_raises_witness :
  exists r, fst (interviewer_handler demo_interviewer_env linkedin_put_fault demo_interviewer_provider
                   (PDict jane_fields) demo_world) = Ok r /\
            pyget r "statusCode" PNone = Ok (PInt 200).
Proof.
  apply (interviewer_url_event_never_raises demo_interviewer_env linkedin_put_fault
           demo_interviewer_provider jane_fields jane_url demo_world); try wit.
  intros j code text v H. cbn in H. injection H as _ _ <-. reflexivity.
Defined.

Lemma interviewer_non_string_link_raises_witness :
  fst (interviewer_handler demo_interviewer_env no_faults object_link_provider (PDict name_fields)
         demo_world) = Exn "TypeError: expected string or bytes-like object".
Proof.
  apply (interviewer_non_string_link_raises demo_interviewer_env no_faults object_link_provider
           name_fields (PDict [("href", PStr jane_url)]) demo_world); wit.
Defined.

Lemma persona_raises_on_stored_interviewer_integer_witness :
  fst (persona_handler demo_persona_env no_faults
         (PDict [("session_id", PStr "s1"); ("interviewer_linkedin_id", PStr "jane-doe")])
         (invocation (snd (interviewer_handler demo_interviewer_env no_faults demo_interviewer_provider
                             (PDict jane_fields) demo_world)))) = Exn decimal_type_error.
Proof.
  apply (persona_raises_on_stored_interviewer_integer demo_interviewer_env no_faults
           demo_interviewer_provider jane_fields jane_url "jane-doe"
           [("fullName", PStr "Jane Doe"); ("headline", PStr "Engineering Manager at Acme");
            ("summary", PStr "Builds teams."); ("connections", PInt 500)] "connections" 500 demo_world
           demo_persona_env no_faults "s1" demo_session_item);
    wit.
Defined.


Lemma interviewer_stores_research_record_witness :
  exists g,
    fst (interviewer_handler demo_interviewer_env no_faults demo_interviewer_provider
           (PDict jane_fields) demo_world) =
      Ok (interviewer_success (PStr "s1") "jane-doe" (PStr jane_url)) /\
    w_linkedin (snd (interviewer_handler demo_interviewer_env no_faults demo_interviewer_provider
                       (PDict jane_fields) demo_world)) =
      <[ "jane-doe" := item_of [("linkedin_url", PStr "jane-doe"); ("data", demo_profile);
                                ("persona_profile", g); ("updated_at", PInt 1700000000)]]>
        (w_linkedin demo_world) /\
    w_company (snd (interviewer_handler demo_interviewer_env no_faults demo_interviewer_provider
                      (PDict jane_fields) demo_world)) = w_company demo_world /\
    w_persona (snd (interviewer_handler demo_interviewer_env no_faults demo_interviewer_provider
                      (PDict jane_fields) demo_world)) = w_persona demo_world /\
    (forall w0, fst (generate_persona_profile demo_llm demo_profile w0) = Ok g).
Proof.
  apply (interviewer_stores_research_record demo_interviewer_env no_faults demo_interviewer_provider
           jane_fields jane_url "jane-doe" demo_profile demo_world); wit.
Defined.

Lemma build_prompts_session_fields_witness :
  build_prompts no_faults (<[ "status" := PStr "READY" ]> demo_session_item) PNone PNone =
  build_prompts no_faults demo_session_item PNone PNone.
Proof.
  apply (build_prompts_session_fields no_faults demo_session_item "status" (PStr "READY") PNone PNone);
    discriminate.
Defined.
